(** * coax: Q-learning targets, target-network sync, meta-policy wrapper

    A shallow embedding of
      - [coax/td_learning/_qlearning.py]  (class [QLearning]),
      - [coax/wrappers/_meta_policy.py]   (class [MetaPolicyEnv]),
      - [doc/examples/atari/apex_dqn.py]  (class [ApexWorker]),
    together with models of the collaborators these files call.

    Python code that may raise is embedded in the error monad [result];
    code that mutates objects threads an explicit state. *)

From Stdlib Require Import ZArith QArith List Bool Lia Floats.
From stdpp Require Import gmap strings list fin_maps.

Local Open Scope string_scope.
Local Open Scope list_scope.
Local Open Scope nat_scope.

(* ===================================================================== *)
(** * Python exceptions and the error monad                               *)
(* ===================================================================== *)

Module Py.

(** The exception classes the embedded code raises or lets through.
    [AssertionError msg shape] carries the formatted shape of
    [f"bad shape: {x.shape}"] as data. *)
Inductive exn : Type :=
| AssertionError (msg : string) (shape : list nat)
| TypeError (msg : string)
| KeyError (key : string)
| AttributeError (msg : string)
| ValueError (msg : string)
| IndexError (msg : string)
| BroadcastError (lhs rhs : list nat).

Inductive result (A : Type) : Type :=
| Ok (a : A)
| Raise (e : exn).
Arguments Ok {A} a.
Arguments Raise {A} e.

Definition bind {A B} (m : result A) (k : A → result B) : result B :=
  match m with
  | Ok a => k a
  | Raise e => Raise e
  end.

(** [assert cond, exc] *)
Definition assert (cond : bool) (e : exn) : result unit :=
  if cond then Ok tt else Raise e.

(** [d[key]] on a dict with string keys. *)
Definition getitem {A} (d : gmap string A) (key : string) : result A :=
  match d !! key with
  | Some a => Ok a
  | None => Raise (KeyError key)
  end.

Definition is_Ok {A} (r : result A) : bool :=
  match r with Ok _ => true | Raise _ => false end.

End Py.
Export Py.

(** [result] is used through stdpp's monad notations [x ← m; k]. *)
#[export] Instance result_ret : MRet result := @Ok.
#[export] Instance result_bind : MBind result := fun A B k m => Py.bind m k.

(* ===================================================================== *)
(** * Array elements                                                      *)
(* ===================================================================== *)

(** The element type of the arrays ([float32] in the library) is kept
    abstract: the code only adds, multiplies and compares elements. *)
Class Scalar (V : Type) : Type := {
  szero : V;
  sone : V;
  sadd : V → V → V;
  ssub : V → V → V;
  smul : V → V → V;
  smax : V → V → V
}.

(** The algebraic laws of exact arithmetic that the statements about
    blending and discounting rely on. *)
Class ScalarLaws (V : Type) `{Scalar V} : Prop := {
  sadd_0_l : ∀ x, sadd szero x = x;
  sadd_0_r : ∀ x, sadd x szero = x;
  smul_0_l : ∀ x, smul szero x = szero;
  smul_1_l : ∀ x, smul sone x = x;
  smul_1_r : ∀ x, smul x sone = x;
  ssub_diag : ∀ x, ssub x x = szero;
  ssub_0_r : ∀ x, ssub x szero = x;
  sblend_same : ∀ t x, sadd (smul (ssub sone t) x) (smul t x) = x
}.

#[export] Instance Z_Scalar : Scalar Z := {|
  szero := 0%Z; sone := 1%Z;
  sadd := Z.add; ssub := Z.sub; smul := Z.mul; smax := Z.max
|}.

#[export] Instance Q_Scalar : Scalar Q := {|
  szero := 0%Q; sone := 1%Q;
  sadd := Qplus; ssub := Qminus; smul := Qmult;
  smax := fun x y => if Qle_bool x y then y else x
|}.

(** IEEE 754 floating point (binary64 here; the library's arrays are
    float32, with the same infinities, NaNs and signed zeros).  The
    maximum propagates NaN, as [jnp.max] does. *)
#[export] Instance float_Scalar : Scalar float := {|
  szero := 0%float; sone := 1%float;
  sadd := PrimFloat.add; ssub := PrimFloat.sub; smul := PrimFloat.mul;
  smax := fun x y =>
    if PrimFloat.is_nan x then x
    else if PrimFloat.is_nan y then y
    else if PrimFloat.ltb x y then y else x
|}.

(* ===================================================================== *)
(** * jax.numpy arrays                                                    *)
(* ===================================================================== *)

Module Jnp.
Section Arrays.
Context {V : Type} `{Scalar V}.

(** An array is its shape and its elements in row-major order. *)
Record ndarray : Type := NDArray {
  shape : list nat;
  data : list V
}.

Definition ndim (a : ndarray) : nat := length (shape a).

Definition size_of (sh : list nat) : nat := fold_right Nat.mul 1%nat sh.

Definition well_formed (a : ndarray) : Prop :=
  length (data a) = size_of (shape a).

(** Shapes are broadcast from the trailing dimension; both arguments
    of [broadcast_rev] are reversed shapes. *)
Fixpoint broadcast_rev (s1 s2 : list nat) : option (list nat) :=
  match s1, s2 with
  | [], s => Some s
  | s, [] => Some s
  | d1 :: r1, d2 :: r2 =>
      match (if (d1 =? d2)%nat then Some d1
             else if (d1 =? 1)%nat then Some d2
             else if (d2 =? 1)%nat then Some d1
             else None),
            broadcast_rev r1 r2 with
      | Some d, Some r => Some (d :: r)
      | _, _ => None
      end
  end.

Definition broadcast_shapes (s1 s2 : list nat) : option (list nat) :=
  match broadcast_rev (rev s1) (rev s2) with
  | Some r => Some (rev r)
  | None => None
  end.

(** Row-major position, in an operand of (reversed) shape [os], of
    the element that lands at flat position [i] of the broadcast
    result of (reversed) shape [rs]. *)
Fixpoint src_index (rs os : list nat) (i stride : nat) : nat :=
  match rs, os with
  | d :: rs', o :: os' =>
      ((if (o =? 1)%nat then 0 else i mod d) * stride
       + src_index rs' os' (i / d) (stride * o))%nat
  | _, _ => 0%nat
  end.

Definition elementwise (op : V → V → V) (a b : ndarray) : result ndarray :=
  match broadcast_shapes (shape a) (shape b) with
  | None => Raise (BroadcastError (shape a) (shape b))
  | Some rs =>
      Ok {| shape := rs;
            data := map (fun i =>
                           op (nth (src_index (rev rs) (rev (shape a)) i 1) (data a) szero)
                              (nth (src_index (rev rs) (rev (shape b)) i 1) (data b) szero))
                        (seq 0 (size_of rs)) |}
  end.

(** [a + b], [a - b] and [a * b]. *)
Definition add : ndarray → ndarray → result ndarray := elementwise sadd.
Definition sub : ndarray → ndarray → result ndarray := elementwise ssub.
Definition mul : ndarray → ndarray → result ndarray := elementwise smul.

(** The rows of a [b × k] table. *)
Fixpoint rows (b k : nat) (xs : list V) : list (list V) :=
  match b with
  | O => []
  | S b' => take k xs :: rows b' k (drop k xs)
  end.

(** Maximum of a non-empty row. *)
Definition row_max (row : list V) : V :=
  match row with
  | [] => szero
  | x :: xs => fold_left smax xs x
  end.

(** [jnp.max(a, axis=1)] on a two-dimensional array; reducing an axis
    of length zero is an error. The function is only called behind
    the rank-2 assertion; other ranks do not reach it and are
    reported as a bad axis. *)
Definition max_axis1 (a : ndarray) : result ndarray :=
  match shape a with
  | [b; k] =>
      if (k =? 0)%nat
      then Raise (ValueError "zero-size array to reduction operation max which has no identity")
      else Ok {| shape := [b]; data := map row_max (rows b k (data a)) |}
  | _ => Raise (ValueError "axis 1 is out of bounds or not the last axis")
  end.

End Arrays.
Arguments ndarray V : clear implicits.
End Jnp.
Export Jnp.

(* ===================================================================== *)
(** * Collaborators of the updater                                        *)
(* ===================================================================== *)

(** The types the updater is agnostic about: batches of observations
    and actions, parameter and function-state blobs, distribution
    parameters, and PRNG keys with [jax.random.split]. *)
Class Domain : Type := {
  Obs : Type;
  Act : Type;
  Params : Type;
  FState : Type;
  DistParams : Type;
  Rng : Type;
  split : Rng → Rng * Rng
}.

(** [gym.spaces]: the action-space descriptor of a q-function. *)
Inductive Space : Type :=
| Discrete (n : nat)
| Box (shape : list nat)
| MultiDiscrete (nvec : list nat)
| MultiBinary (n : nat).

(** [isinstance(space, Discrete)] *)
Definition is_Discrete (sp : Space) : bool :=
  match sp with Discrete _ => true | _ => false end.

Section Collaborators.
Context {V : Type} `{Scalar V} {D : Domain}.

(** [hk.PRNGSequence(rng)]: [next] splits the stored key, keeps the
    first half and hands out the second. *)
Definition PRNGSequence : Type := Rng.
Definition next (rngs : PRNGSequence) : Rng * PRNGSequence :=
  let '(key, subkey) := split rngs in (subkey, key).

(** [coax.Q]: the two evaluation modes and the action space.
    [function_type1(params, state, rng, S, A, is_training)] returns a
    value per sample, [function_type2(params, state, rng, S,
    is_training)] a value per sample and action; both also return the
    new function state. *)
Record Q_t : Type := {
  action_space : Space;
  function_type1 :
    Params → FState → Rng → Obs → Act → bool → result (ndarray V * FState);
  function_type2 :
    Params → FState → Rng → Obs → bool → result (ndarray V * FState)
}.

(** [coax.Policy]: [function(params, state, rng, S, is_training)]
    returns distribution parameters; [proba_dist.mode] extracts the
    greedy action from them and takes no random key. *)
Record Policy : Type := {
  function : Params → FState → Rng → Obs → bool → result (DistParams * FState);
  proba_dist_mode : DistParams → result Act
}.

(** Modelled from the spec: the layout of [TransitionBatch] (its
    class is not part of the sources at hand). The fields in tuple
    order; [transition_batch[3:6]] is [(Rn, In, S_next)]. *)
Record TransitionBatch : Type := {
  S_ : Obs;
  A_ : Act;
  logp : ndarray V;
  Rn : ndarray V;
  In_ : ndarray V;
  S_next : Obs;
  W_ : ndarray V;
  idx : list nat
}.

(** A value transform is a pair [(f, f_inv)] of array functions. *)
Definition ValueTransform : Type :=
  ((ndarray V → result (ndarray V)) * (ndarray V → result (ndarray V)))%type.

(** Modelled from the spec: the default value transform (set up by the
    base class, which is not part of the sources at hand) is the
    identity pair. *)
Definition identity_transform : ValueTransform := (Ok, Ok).

End Collaborators.
Arguments Q_t V {D}.
Arguments Policy {D}.
Arguments TransitionBatch V {D}.
Arguments ValueTransform V : clear implicits.

(* ===================================================================== *)
(** * coax/td_learning/_qlearning.py                                      *)
(* ===================================================================== *)

Module QLearning.
Section QLearning.
Context {V : Type} `{Scalar V} {D : Domain}.

(** The attributes of a [QLearning] instance that the methods below
    read. *)
Record t : Type := {
  q : Q_t V;
  pi_targ : option Policy;
  q_targ : Q_t V;
  value_transform : ValueTransform V
}.

Inductive warning : Type :=
| UserWarning (msg : string).

(** Modelled from the spec: [BaseTDLearningQWithTargetPolicy.__init__]
    (not part of the sources at hand) stores its arguments; an
    unspecified [q_targ] is set to [q] (docstring of [QLearning]), an
    unspecified [value_transform] to the identity pair. *)
Definition super_init (q0 : Q_t V) (pi_targ0 : option Policy)
    (q_targ0 : option (Q_t V)) (vt : option (ValueTransform V)) : t :=
  {| q := q0;
     pi_targ := pi_targ0;
     q_targ := default q0 q_targ0;
     value_transform := default identity_transform vt |}.

(** [QLearning.__init__]: the constructed object (or the exception
    that aborts construction) and the warnings emitted on the way. *)
Definition __init__ (q0 : Q_t V) (pi_targ0 : option Policy)
    (q_targ0 : option (Q_t V)) (vt : option (ValueTransform V))
  : result t * list warning :=
  let self := super_init q0 pi_targ0 q_targ0 vt in
  (* consistency checks *)
  if bool_decide (pi_targ self = None) && negb (is_Discrete (action_space (q self)))
  then (Raise (TypeError "pi_targ must be provided if action space is not discrete"), [])
  else
    if negb (bool_decide (pi_targ self = None)) && is_Discrete (action_space (q self))
    then (Ok self, [UserWarning "pi_targ is ignored, because action space is discrete"])
    else (Ok self, []).

(** [QLearning.target_func] *)
Definition target_func (self : t)
    (target_params : gmap string Params) (target_state : gmap string FState)
    (rng : Rng) (transition_batch : TransitionBatch V) : result (ndarray V) :=
  let rngs : PRNGSequence := rng in
  let '(Rn, In, S_next) :=
    (Rn transition_batch, In_ transition_batch, S_next transition_batch) in
  Q_sa ←
    (if is_Discrete (action_space (q self)) then
       (* get greedy value directly from q_targ *)
       params ← getitem target_params "q_targ";
       state ← getitem target_state "q_targ";
       '(Q_s, _) ← function_type2 (q_targ self) params state rng S_next false;
       _ ← assert (ndim Q_s =? 2)%nat (AssertionError "bad shape" (shape Q_s));
       max_axis1 Q_s
     else
       (* get greedy action from pi_targ *)
       params ← getitem target_params "pi_targ";
       state ← getitem target_state "pi_targ";
       match pi_targ self with
       | None => Raise (AttributeError "'NoneType' object has no attribute 'function'")
       | Some pi =>
           let '(rng1, rngs) := next rngs in
           '(dist_params, _) ← function pi params state rng1 S_next false;
           A_next ← proba_dist_mode pi dist_params;  (* greedy action *)
           (* evaluate q_targ on greedy action *)
           params ← getitem target_params "q_targ";
           state ← getitem target_state "q_targ";
           let '(rng2, rngs) := next rngs in
           '(Q_sa, _) ← function_type1 (q_targ self) params state rng2 S_next A_next false;
           Ok Q_sa
       end);
  _ ← assert (ndim Q_sa =? 1)%nat (AssertionError "bad shape" (shape Q_sa));
  let '(f, f_inv) := value_transform self in
  y ← f_inv Q_sa;
  z ← mul In y;
  g ← add Rn z;
  f g.

(** The updater [self] with another (or no) target policy. *)
Definition with_pi_targ (pi' : option Policy) (self : t) : t :=
  {| q := q self;
     pi_targ := pi';
     q_targ := q_targ self;
     value_transform := value_transform self |}.

End QLearning.
Arguments t V {D}.
End QLearning.

(* ===================================================================== *)
(** * coax/wrappers/_meta_policy.py                                       *)
(* ===================================================================== *)

(** The Python values a caller may pass as a meta-action. *)
Inductive pyobj : Type :=
| PyInt (z : Z)
| PyFloat (q : Q)
| PyStr (s : string)
| PyNone.

(** [gym.spaces.Discrete(n).contains(x)]: an integer in [0, n). The
    wrapper only ever builds [Discrete] spaces. *)
Definition contains (sp : Space) (x : pyobj) : bool :=
  match sp, x with
  | Discrete n, PyInt z => (0 <=? z)%Z && (z <? Z.of_nat n)%Z
  | _, _ => false
  end.

Module MetaPolicyEnv.
Section MetaPolicyEnv.
(** [World] is everything mutable outside the wrapper object: the
    wrapped environment's internals (the [info] dict it hands out
    included) and the arms' own random state.  Observations are
    elements of the observation space (never [None]).  A call of a
    collaborator returns the world it leaves and either its value or
    the exception it raised; [Raise e] also stands for a value whose
    tuple unpacking raises [e]. *)
Context {V : Type} `{Scalar V} {World Obs Action Reward Extra : Type}.

(** The values stored in an [info] dict. *)
Inductive info_val : Type :=
| InfoAction (a : Action)
| InfoLogp (x : V)
| InfoExtra (x : Extra).

(** An arm: a callable taking a state observation.
    [getargspec_args] is what [inspect.getargspec(pi).args] gives: the
    argument names, or the exception of [inspect.getargspec] (it
    raises [ValueError] for a function with annotations or
    keyword-only parameters).  [call] is [pi(s)], [call_return_logp] is
    [a, logp = pi(s, return_logp=True)]. *)
Record arm : Type := {
  getargspec_args : result (list string);
  call : World → Obs → World * result Action;
  call_return_logp : World → Obs → World * result (Action * V)
}.

(** The wrapped gym-style environment.  [env_reset] is an
    [env.reset()] that returns.  [env_step] is
    [s, r, done, info = env.step(a)], an exception of the call or of
    the unpacking included; [info] is a dict or [None], as the gym
    interface has it.
    [info_write w d] is the world once the dict object that the last
    [step] returned holds [d]: the wrapper updates that object in
    place. *)
Record Env : Type := {
  env_reset : World → World * Obs;
  env_step : World → Action →
             World * result (Obs * Reward * bool * option (gmap string info_val));
  info_write : World → gmap string info_val → World
}.

Record t : Type := {
  env : Env;
  arms : list arm;
  action_space : Space;
  _s : option Obs
}.

(** [MetaPolicyEnv.__init__(self, env, *arms)] *)
Definition __init__ (env0 : Env) (arms0 : list arm) : t :=
  {| env := env0;
     arms := arms0;
     action_space := Discrete (length arms0);
     _s := None |}.

(** [MetaPolicyEnv.reset] *)
Definition reset (self : t) (w : World) : Obs * t * World :=
  let '(w', s) := env_reset (env self) w in
  (s, {| env := env self; arms := arms self;
         action_space := action_space self; _s := Some s |}, w').

(** [self.arms[a_meta]] for an integer index (negative indices count
    from the end). *)
Definition arms_getitem (l : list arm) (z : Z) : result arm :=
  let i := if (z <? 0)%Z then (z + Z.of_nat (length l))%Z else z in
  if (i <? 0)%Z then Raise (IndexError "tuple index out of range")
  else match l !! Z.to_nat i with
       | Some pi => Ok pi
       | None => Raise (IndexError "tuple index out of range")
       end.

(** Lines 66-70 of [step]: the action [pi] gives for the stored state
    and its log-propensity, which is [0.] for an arm without a
    [return_logp] argument. *)
Definition sample_arm (pi : arm) (w : World) (s : Obs) : World * result (Action * V) :=
  match getargspec_args pi with
  | Raise e => (w, Raise e)
  | Ok names =>
      if bool_decide ("return_logp" ∈ names)
      then call_return_logp pi w s
      else let '(w1, ra) := call pi w s in
           (w1, match ra with
                | Ok a => Ok (a, szero)
                | Raise e => Raise e
                end)
  end.

(** [info = info or {}; info.update({'a': a, 'logp': logp})]: the
    contents of the dict that is returned. *)
Definition merge_info (info : option (gmap string info_val)) (a : Action) (logp : V)
  : gmap string info_val :=
  <["logp" := InfoLogp logp]> (<["a" := InfoAction a]> (default ∅ info)).

(** The world after the update: a non-empty dict of the environment
    is the object updated; [None] and an empty dict are replaced by a
    fresh dict and the world stays as it is. *)
Definition world_after_update (env0 : Env) (w : World)
    (info : option (gmap string info_val)) (a : Action) (logp : V) : World :=
  match info with
  | Some d => if decide (d = ∅) then w else info_write env0 w (merge_info info a logp)
  | None => w
  end.

(** [MetaPolicyEnv.step]: the outcome, the wrapper object and the
    world after the call. *)
Definition step (self : t) (w : World) (a_meta : pyobj)
  : result (Obs * Reward * bool * gmap string info_val) * t * World :=
  if negb (contains (action_space self) a_meta)
  then (Raise (AssertionError "a_meta is invalid" []), self, w)
  else
    match _s self with
    | None => (Raise (AssertionError "please call env.reset() first" []), self, w)
    | Some s =>
        match (match a_meta with
               | PyInt z => arms_getitem (arms self) z
               | _ => Raise (TypeError "tuple indices must be integers or slices")
               end) with
        | Raise e => (Raise e, self, w)
        | Ok pi =>
            match sample_arm pi w s with
            | (w1, Raise e) => (Raise e, self, w1)
            | (w1, Ok (a, logp)) =>
                match env_step (env self) w1 a with
                | (w2, Raise e) => (Raise e, self, w2)
                | (w2, Ok (s', r, done, info)) =>
                    (Ok (s', r, done, merge_info info a logp),
                     {| env := env self; arms := arms self;
                        action_space := action_space self; _s := Some s' |},
                     world_after_update (env self) w2 info a logp)
                end
            end
        end
    end.


(** A client drives the wrapper through its two methods. *)
Inductive method_call : Type :=
| CallReset
| CallStep (a_meta : pyobj).

Definition is_reset (c : method_call) : bool :=
  match c with CallReset => true | CallStep _ => false end.

Definition do_call (st : t * World) (c : method_call) : t * World :=
  match c with
  | CallReset => let '(_, self', w') := reset (fst st) (snd st) in (self', w')
  | CallStep a => let '(_, self', w') := step (fst st) (snd st) a in (self', w')
  end.

(** The wrapper after a history of calls on a freshly constructed
    object. *)
Definition after_calls (env0 : Env) (arms0 : list arm) (w : World)
    (calls : list method_call) : t * World :=
  fold_left do_call calls (__init__ env0 arms0, w).

(** The attributes that no method assigns, and the stored state, after
    a history of calls with or without a [reset]. *)
Definition wrapper_inv (env0 : Env) (arms0 : list arm) (was_reset : bool)
    (st : t * World) : Prop :=
  env st.1 = env0 ∧ arms st.1 = arms0
  ∧ action_space st.1 = Discrete (length arms0)
  ∧ (is_Some (_s st.1) ↔ was_reset = true).

End MetaPolicyEnv.
Arguments info_val : clear implicits.
Arguments arm : clear implicits.
Arguments Env : clear implicits.
Arguments t : clear implicits.
End MetaPolicyEnv.

(* ===================================================================== *)
(** * doc/examples/atari/apex_dqn.py                                      *)
(* ===================================================================== *)

Module ApexWorker.
Section ApexWorker.
(** [St] is the mutable state the worker's collaborators live in
    (tracer, q-functions, buffer, parameter store, environment);
    [QRef] names q-function objects. *)
Context {St QRef Obs Action Reward Logp Batch TdError : Type}.

(** The calls [trace] makes on its collaborators, as they would show
    in a call log. *)
Inductive event : Type :=
| TracerAdd (s : Obs) (a : Action) (r : Reward) (done : bool) (logp : Logp)
| SoftUpdate (target source : QRef) (tau : Q)
| TracerFlush
| TdErrorCall (transition_batch : Batch)
| BufferAdd (transition_batch : Batch) (td_error : TdError)
| PushSetattr (name : string) (value : Q).

Definition is_SoftUpdate (e : event) : bool :=
  match e with SoftUpdate _ _ _ => true | _ => false end.

(** Worker code runs in a state monad over the collaborators' state
    and the log of calls made so far, with Python exceptions. State
    changes made before an exception persist. *)
Definition M (A : Type) : Type := St * list event → result A * (St * list event).

Definition ret {A} (a : A) : M A := fun σ => (Ok a, σ).

Definition bind {A B} (m : M A) (k : A → M B) : M B :=
  fun σ => match m σ with
           | (Ok a, σ') => k a σ'
           | (Raise e, σ') => (Raise e, σ')
           end.

(** Calling a collaborator: the call is logged, then it runs. *)
Definition call {A} (ev : event) (op : St → result A * St) : M A :=
  fun σ => let '(r, st') := op (fst σ) in (r, (st', snd σ ++ [ev])).

Definition read {A} (f : St → A) : M A := fun σ => (Ok (f (fst σ)), σ).

(** The collaborators: [coax.reward_tracing.NStep], [coax.Q],
    [QLearning.td_error], and the [coax.Worker] base class; none of
    them is part of the sources at hand, so they are parameters. *)
Record Collaborators : Type := {
  tracer_add : Obs → Action → Reward → bool → Logp → St → result unit * St;
  tracer_flush : St → result Batch * St;
  soft_update : QRef → QRef → Q → St → result unit * St;
  td_error : Batch → St → result TdError * St;
  buffer_add : Batch → TdError → St → result unit * St;
  push_setattr : string → Q → St → result unit * St;
  env_T : St → Z
}.

(** [self.q_updater]: the two q-function objects of the updater. *)
Record Updater : Type := {
  q : QRef;
  q_targ : QRef
}.

Record t : Type := {
  q_updater : Updater;
  beta : Z → Q;     (* [coax.utils.StepwiseLinearFunction] *)
  ops : Collaborators
}.

(** The properties [ApexWorker.q] and [ApexWorker.q_targ]. *)
Definition q_ (self : t) : QRef := q (q_updater self).
Definition q_targ_ (self : t) : QRef := q_targ (q_updater self).

(** [ApexWorker.trace] *)
Definition trace (self : t) (s : Obs) (a : Action) (r : Reward) (done : bool)
    (logp : Logp) : M unit :=
  bind (call (TracerAdd s a r done logp) (tracer_add (ops self) s a r done logp)) (fun _ =>
  bind (call (SoftUpdate (q_targ_ self) (q_ self) (1 # 1000))
             (soft_update (ops self) (q_targ_ self) (q_ self) (1 # 1000))) (fun _ =>
  if done then
    bind (call TracerFlush (tracer_flush (ops self))) (fun transition_batch =>
    bind (call (TdErrorCall transition_batch) (td_error (ops self) transition_batch))
         (fun td_err =>
    bind (call (BufferAdd transition_batch td_err)
               (buffer_add (ops self) transition_batch td_err)) (fun _ =>
    bind (read (env_T (ops self))) (fun T =>
    call (PushSetattr "buffer.beta" (beta self T))
         (push_setattr (ops self) "buffer.beta" (beta self T))))))
  else ret tt)).

End ApexWorker.
Arguments event : clear implicits.
Arguments Collaborators : clear implicits.
Arguments Updater : clear implicits.
Arguments t : clear implicits.
End ApexWorker.

(* ===================================================================== *)
(** * Reward tracing (n-step)                                             *)
(* ===================================================================== *)

Module NStep.
Section NStep.
Context {V : Type} `{Scalar V} {State Action : Type}.

(** A transition as [add(s, a, r, done, logp)] receives it. *)
Record Transition : Type := {
  s : State;
  a : Action;
  r : V;
  done : bool;
  logp : V
}.

(** A traced transition batch of a single sample. *)
Record Batch : Type := {
  S_ : State;
  A_ : Action;
  logp_ : V;
  Rn : V;
  In_ : V;
  S_next : State;
  W_ : V
}.

Fixpoint spow (γ : V) (k : nat) : V :=
  match k with
  | O => sone
  | S k' => smul γ (spow γ k')
  end.

(** [Σ_k γ^(k0+k) · R_k] over the rewards of a window. *)
Fixpoint discounted_sum (γ : V) (k0 : nat) (rs : list V) : V :=
  match rs with
  | [] => szero
  | r0 :: rs' => sadd (smul (spow γ k0) r0) (discounted_sum γ (S k0) rs')
  end.

(** For a window that ended at a terminal transition the spec names
    "the terminal state" as [S_next].  No argument of [add] carries
    that state, so what a tracer puts there is a value it computes from
    the transitions of the window, [first :: rest]; which one is left
    open. *)
Variable terminal_S_next : Transition → list Transition → State.

(** Modelled from the spec: the reward tracer [NStep] (§4.1; its
    module is not part of the sources at hand). It keeps the trace
    horizon [n], the discount [gamma], the window of pending
    transitions (oldest first) and the batches that are ready. *)
Record t : Type := {
  n : nat;
  gamma : V;
  window : list Transition;
  ready : list Batch
}.

Definition init (n0 : nat) (gamma0 : V) : t :=
  {| n := n0; gamma := gamma0; window := []; ready := [] |}.

(** Modelled from the spec: the batch of the window [first :: rest]
    with bootstrap state [S_next0]. [Rn] is the discounted sum of the
    window's rewards; [In] is 0 if a transition of the window is
    terminal and [γ^n] otherwise. *)
Definition emit (n0 : nat) (γ : V) (first : Transition) (rest : list Transition)
    (S_next0 : State) : Batch :=
  let w := first :: rest in
  {| S_ := s first;
     A_ := a first;
     logp_ := logp first;
     Rn := discounted_sum γ 0 (map r w);
     In_ := if existsb done w then szero else spow γ n0;
     S_next := S_next0;
     W_ := sone |}.

(** Modelled from the spec: on a terminal transition the window keeps
    shrinking and re-emitting until it is empty. *)
Fixpoint flush_window (n0 : nat) (γ : V) (w : list Transition) : list Batch :=
  match w with
  | [] => []
  | x :: w' => emit n0 γ x w' (terminal_S_next x w') :: flush_window n0 γ w'
  end.

(** Modelled from the spec: [add] appends the transition.  The oldest
    window of [n] transitions is complete once the state [n] steps
    after its start is known, which is the state of the transition just
    added: it is emitted and its first transition dropped.  A terminal
    transition then flushes every remaining window. *)
Definition add (self : t) (x : Transition) : t :=
  let w := window self ++ [x] in
  let '(emitted, w) :=
    match w with
    | first :: rest =>
        if (n self <? length w)%nat
        then ([emit (n self) (gamma self) first (take (n self - 1) rest) (s x)], rest)
        else ([], w)
    | [] => ([], w)
    end in
  if done x then
    {| n := n self; gamma := gamma self; window := [];
       ready := ready self ++ emitted ++ flush_window (n self) (gamma self) w |}
  else
    {| n := n self; gamma := gamma self; window := w;
       ready := ready self ++ emitted |}.

(** Modelled from the spec: [flush] drains the ready batches. *)
Definition flush (self : t) : list Batch * t :=
  (ready self,
   {| n := n self; gamma := gamma self; window := window self; ready := [] |}).

(** Feeding a stream of transitions and draining after each. *)
Fixpoint run (self : t) (xs : list Transition) : list Batch :=
  match xs with
  | [] => []
  | x :: xs' =>
      let '(bs, self') := flush (add self x) in
      bs ++ run self' xs'
  end.



End NStep.
Arguments Transition : clear implicits.
Arguments Batch : clear implicits.
Arguments t : clear implicits.
End NStep.

(* ===================================================================== *)
(** * Function objects and target-network synchronisation                *)
(* ===================================================================== *)

(** A q-function or policy as a Python object: what it owns and what
    methods mutate. Objects live in a heap indexed by their identity, so
    that two references to one object see the same parameters. *)
Record FuncObj (P S : Type) : Type := {
  params : P;
  function_state : S
}.
Arguments params {P S} _.
Arguments function_state {P S} _.

Module TargetSync.
Section TargetSync.
Context {V : Type} `{Scalar V}.

(** Parameters and function state are named collections of arrays,
    each array given by its elements. *)
Abbreviation pytree := (gmap string (list V)).

(** [(1 − τ)·x + τ·y] *)
Definition blend (tau x y : V) : V :=
  sadd (smul (ssub sone tau) x) (smul tau y).

Definition blend_tree (tau : V) (old new : pytree) : pytree :=
  map_zip_with (zip_with (blend tau)) old new.



(** Modelled from the spec: [soft_update(source, tau)] (§4.4; the
    q-function class is not part of the sources at hand) blends the
    target's parameters towards the source's,
    [θ_targ ← (1−τ)θ_targ + τθ_source], elementwise, and does the same
    to the function state. Only the object [self] is assigned to. *)
Definition soft_update (self other : nat) (tau : V)
    (h : gmap nat (FuncObj pytree pytree)) : gmap nat (FuncObj pytree pytree) :=
  match h !! self, h !! other with
  | Some targ, Some src =>
      <[self := {| params := blend_tree tau (params targ) (params src);
                   function_state :=
                     blend_tree tau (function_state targ) (function_state src) |}]> h
  | _, _ => h   (* references always point to live objects *)
  end.

End TargetSync.
End TargetSync.

(* ===================================================================== *)
(** * The TD-learning update                                              *)
(* ===================================================================== *)

Module TDLearning.
Section TDLearning.
Context {V : Type} `{Scalar V} {D : Domain} {OptState : Type}.

(** An updater: the Q-learning rule of [_qlearning.py], references to
    the objects that hold the parameters of [q], [q_targ] and
    [pi_targ] (which may be one and the same object for [q] and
    [q_targ]), and the capabilities it consumes: the loss function,
    differentiation of a scalar function of the parameters, and the
    optimizer step. *)
Record t : Type := {
  rule : QLearning.t V;
  q_ref : nat;
  q_targ_ref : nat;
  pi_targ_ref : option nat;
  loss_function : ndarray V → ndarray V → ndarray V → result V;
  grad : (Params → result V) → Params → result Params;
  optimizer_update : Params → OptState → Params → Params * OptState
}.

Definition read_obj (h : gmap nat (FuncObj Params FState)) (ref : nat)
  : result (FuncObj Params FState) :=
  match h !! ref with
  | Some o => Ok o
  | None => Raise (AttributeError "dangling reference")
  end.

(** The dicts handed to [target_func]: the target q-function's entry
    under ["q_targ"] and, when there is a target policy, its entry
    under ["pi_targ"]. *)
Definition target_dict {A} (proj : FuncObj Params FState → A) (self : t)
    (h : gmap nat (FuncObj Params FState)) : result (gmap string A) :=
  targ ← read_obj h (q_targ_ref self);
  match pi_targ_ref self with
  | None => Ok {[ "q_targ" := proj targ ]}
  | Some p =>
      pi ← read_obj h p;
      Ok (<["pi_targ" := proj pi]> {[ "q_targ" := proj targ ]})
  end.

(** The loss as a function of the trained parameters, for a target
    [G] that is a fixed label. *)
Definition loss_at (self : t) (G : ndarray V) (state : FState) (rng : Rng)
    (batch : TransitionBatch V) (θ : Params) : result V :=
  '(Q_pred, _) ← function_type1 (QLearning.q (rule self)) θ state rng
                    (S_ batch) (A_ batch) true;
  loss_function self G Q_pred (W_ batch).

(** Modelled from the spec: [update(transition_batch)] (§4.3; the base
    class of the updaters is not part of the sources at hand).
    (1) the target [G] is computed with the target objects' current
    parameters; (2) the trained q-function predicts [Q_pred] at
    [(S, A)]; (3) the loss compares the label [G] with [Q_pred];
    (4) one optimizer step on the gradient of the loss with respect to
    the trained parameters is assigned to the object [q]; (5) the
    TD error is [G − Q_pred]. An exception leaves heap and optimizer
    state as they were. *)
Definition update_result (self : t) (h : gmap nat (FuncObj Params FState))
    (opt_state : OptState) (rng : Rng) (batch : TransitionBatch V)
  : result (V * ndarray V * gmap nat (FuncObj Params FState) * OptState) :=
  let '(rng_targ, rngs) := next rng in
  let '(rng_q, _) := next rngs in
  qobj ← read_obj h (q_ref self);
  target_params ← target_dict params self h;
  target_state ← target_dict function_state self h;
  G ← QLearning.target_func (rule self) target_params target_state rng_targ batch;
  '(Q_pred, state_new) ← function_type1 (QLearning.q (rule self)) (params qobj)
                            (function_state qobj) rng_q (S_ batch) (A_ batch) true;
  loss ← loss_function self G Q_pred (W_ batch);
  grads ← grad self (loss_at self G (function_state qobj) rng_q batch) (params qobj);
  let '(θ', opt_state') := optimizer_update self grads opt_state (params qobj) in
  td_error ← sub G Q_pred;
  Ok (loss, td_error,
      <[q_ref self := {| params := θ'; function_state := state_new |}]> h,
      opt_state').

Definition update (self : t) (h : gmap nat (FuncObj Params FState))
    (opt_state : OptState) (rng : Rng) (batch : TransitionBatch V)
  : result (V * ndarray V) * gmap nat (FuncObj Params FState) * OptState :=
  match update_result self h opt_state rng batch with
  | Ok (loss, td_error, h', opt_state') => (Ok (loss, td_error), h', opt_state')
  | Raise e => (Raise e, h, opt_state)
  end.

End TDLearning.
Arguments t V {D} OptState.
End TDLearning.

(* ===================================================================== *)
(** * doc/examples/atari/apex_dqn.py: worker state and [learn]           *)
(* ===================================================================== *)

Module ApexWorkerState.
Section ApexWorkerState.
Context {P S : Type}.

(** [self.q_updater]: references to the objects [q] and [q_targ]
    (the properties [ApexWorker.q] and [ApexWorker.q_targ]). *)
Record t : Type := {
  q : nat;
  q_targ : nat
}.

(** The objects the worker reaches: the heap of q-function objects and
    the attribute [self.pi.q] of its behaviour policy. *)
Record store : Type := {
  heap : gmap nat (FuncObj P S);
  pi_q : nat
}.

Definition read_obj (h : gmap nat (FuncObj P S)) (ref : nat) : result (FuncObj P S) :=
  match h !! ref with
  | Some o => Ok o
  | None => Raise (AttributeError "dangling reference")
  end.

(** [obj.params = v] and [obj.function_state = v] *)
Definition set_params (ref : nat) (v : P) (h : gmap nat (FuncObj P S))
  : gmap nat (FuncObj P S) :=
  alter (fun o => {| params := v; function_state := function_state o |}) ref h.

Definition set_function_state (ref : nat) (v : S) (h : gmap nat (FuncObj P S))
  : gmap nat (FuncObj P S) :=
  alter (fun o => {| params := params o; function_state := v |}) ref h.

(** [ApexWorker.get_state] *)
Definition get_state (self : t) (σ : store) : result (P * S * P * S) :=
  qo ← read_obj (heap σ) (q self);
  qt ← read_obj (heap σ) (q_targ self);
  Ok (params qo, function_state qo, params qt, function_state qt).

(** [ApexWorker.set_state]: the four targets of the tuple assignment
    are assigned from left to right, then [self.pi.q = self.q]. *)
Definition set_state (self : t) (state : P * S * P * S) (σ : store) : store :=
  let '(p, s, pt, st) := state in
  let h := set_params (q self) p (heap σ) in
  let h := set_function_state (q self) s h in
  let h := set_params (q_targ self) pt h in
  let h := set_function_state (q_targ self) st h in
  {| heap := h; pi_q := q self |}.

End ApexWorkerState.
Arguments t : clear implicits.
Arguments store : clear implicits.
End ApexWorkerState.

Module ApexWorkerLearn.
Section ApexWorkerLearn.
(** [Val] are the Python values passed around ([transition_batch],
    its [idx], the TD error); [update] is
    [self.q_updater.update(transition_batch, return_td_error=True)] and
    [get_idx] the attribute access [transition_batch.idx]. *)
Context {St Val Metrics : Type}.
Variable update : Val → St → result (Metrics * Val) * St.
Variable get_idx : Val → result Val.

(** The two shapes of call of [learn] there are: with a transition
    batch, and the one in its own body, with two arguments. *)
Inductive call_args : Type :=
| Args1 (transition_batch : Val)
| Args2 (idx td_error : Val).

(** [ApexWorker.learn] called with the positional arguments [args]
    (besides [self]).  The method takes one; its body calls
    [self.learn] again, with two.  [fuel] bounds the depth of the
    recursion, [None] is running out of it. *)
Fixpoint learn (fuel : nat) (args : call_args) (st : St)
  : option (result Metrics * St) :=
  match args with
  | Args1 transition_batch =>
      match fuel with
      | O => None
      | S fuel' =>
          match update transition_batch st with
          | (Raise e, st1) => Some (Raise e, st1)
          | (Ok (metrics, td_error), st1) =>
              match get_idx transition_batch with
              | Raise e => Some (Raise e, st1)
              | Ok idx =>
                  match learn fuel' (Args2 idx td_error) st1 with
                  | Some (Ok _, st2) => Some (Ok metrics, st2)
                  | Some (Raise e, st2) => Some (Raise e, st2)
                  | None => None
                  end
              end
          end
      end
  | Args2 _ _ =>
      Some (Raise (TypeError "learn() takes 2 positional arguments but 3 were given"), st)
  end.

End ApexWorkerLearn.
End ApexWorkerLearn.

(** The value part of an evaluation, without the function state it
    returns alongside. *)
Definition value_of {A B : Type} (r : result (A * B)) : result A :=
  match r with
  | Ok (x, _) => Ok x
  | Raise e => Raise e
  end.

(* ===================================================================== *)
(** * The target formulas in the words of the specification              *)
(* ===================================================================== *)

Module Spec.
Section Spec.
Context {V : Type} `{Scalar V} {D : Domain}.

(** [G = f(Rn + In · f⁻¹(Q_sa))] for a value transform [(f, f⁻¹)]. *)
Definition td_target (vt : ValueTransform V) (Rn In Q_sa : ndarray V)
  : result (ndarray V) :=
  x ← vt.2 Q_sa;
  y ← mul In x;
  z ← add Rn y;
  vt.1 z.

(** With the identity transform: [G = Rn + In · Q_sa]. *)
Definition td_target_identity (Rn In Q_sa : ndarray V) : result (ndarray V) :=
  y ← mul In Q_sa;
  add Rn y.

(** The greedy bootstrap value of a [batch × k] table of action
    values: the maximum over the action axis, one value per sample. *)
Definition greedy_value (b k : nat) (Q_s : ndarray V) : ndarray V :=
  {| shape := [b]; data := map row_max (rows b k (data Q_s)) |}.

(** Discrete actions: type-2 evaluation of the target q-function on
    [S_next], maximum over the action axis, then the target formula. No
    policy takes part. *)
Definition discrete_target (q_targ : Q_t V) (vt : ValueTransform V)
    (params : Params) (state : FState) (rng : Rng) (b k : nat)
    (batch : TransitionBatch V) : result (ndarray V) :=
  '(Q_s, _) ← function_type2 q_targ params state rng (S_next batch) false;
  td_target vt (Rn batch) (In_ batch) (greedy_value b k Q_s).

(** Other actions: the target policy's distribution on [S_next], its
    mode [A_next], type-1 evaluation of the target q-function at
    [(S_next, A_next)], then the target formula. *)
Definition policy_target (q_targ : Q_t V) (pi_targ : Policy)
    (vt : ValueTransform V) (q_params pi_params : Params)
    (q_state pi_state : FState) (rng_pi rng_q : Rng)
    (batch : TransitionBatch V) : result (ndarray V) :=
  '(dist_params, _) ← function pi_targ pi_params pi_state rng_pi (S_next batch) false;
  A_next ← proba_dist_mode pi_targ dist_params;
  '(Q_sa, _) ← function_type1 q_targ q_params q_state rng_q (S_next batch) A_next false;
  td_target vt (Rn batch) (In_ batch) Q_sa.

End Spec.
End Spec.

(* ===================================================================== *)
(** * Concrete instances used in the examples                             *)
(* ===================================================================== *)

Module Examples.

(** Batches of integer-coded observations and actions, integer
    parameters, and keys split as [n ↦ (2n, 2n+1)]. *)
#[export] Instance ZDomain : Domain := {|
  Obs := list Z;
  Act := list Z;
  Params := Z;
  FState := unit;
  DistParams := list Z;
  Rng := nat;
  split := fun n => (2 * n, 2 * n + 1)
|}.

Definition vec (xs : list Z) : ndarray Z := {| shape := [length xs]; data := xs |}.

(** A q-function over three discrete actions whose action values in
    every state are [1, 5, 2]; at a given action its value is the
    action plus the parameter. *)
Definition q_table : Q_t Z := {|
  action_space := Discrete 3;
  function_type1 := fun θ st _ S A _ => Ok (vec (map (Z.add θ) A), st);
  function_type2 := fun _ st _ S _ =>
    Ok ({| shape := [length S; 3]; data := flat_map (fun _ => [1; 5; 2]%Z) S |}, st)
|}.

(** The same function over a continuous action space. *)
Definition q_box : Q_t Z := {|
  action_space := Box [1];
  function_type1 := function_type1 q_table;
  function_type2 := function_type2 q_table
|}.

(** A q-function whose outputs have one dimension too many. *)
Definition q_bad_rank : Space → Q_t Z := fun sp => {|
  action_space := sp;
  function_type1 := fun _ st _ S A _ =>
    Ok ({| shape := [length A; 1]; data := A |}, st);
  function_type2 := fun _ st _ S _ =>
    Ok ({| shape := [length S; 3; 1]; data := flat_map (fun _ => [1; 5; 2]%Z) S |}, st)
|}.

(** A policy whose mode doubles the observation. *)
Definition pi_double : Policy := {|
  function := fun _ st _ S _ => Ok (map (Z.mul 2) S, st);
  proba_dist_mode := fun dist_params => Ok dist_params
|}.

Definition batch (S A : list Z) (Rn In : list Z) (S_next : list Z)
  : TransitionBatch Z :=
  {| S_ := S; A_ := A; logp := vec (map (fun _ => 0%Z) A);
     Rn := vec Rn; In_ := vec In; S_next := S_next;
     W_ := vec (map (fun _ => 1%Z) A); idx := seq 0 (length A) |}.

Definition targ_params : gmap string Z := {[ "q_targ" := 7%Z; "pi_targ" := 0%Z ]}.
Definition targ_state : gmap string unit := {[ "q_targ" := tt; "pi_targ" := tt ]}.

Definition ql_discrete : QLearning.t Z :=
  QLearning.super_init q_table None None None.
Definition ql_box : QLearning.t Z :=
  QLearning.super_init q_box (Some pi_double) None None.

(** A target (object 0) and a source (object 1) with one weight array
    and one running statistic each. *)
Definition heap01 : gmap nat (FuncObj (gmap string (list Z)) (gmap string (list Z))) :=
  {[ 0 := {| params := {[ "w" := [0; 10]%Z ]}; function_state := {[ "mean" := [3%Z] ]} |};
     1 := {| params := {[ "w" := [4; 2]%Z ]}; function_state := {[ "mean" := [5%Z] ]} |} ]}.

(** Floating-point objects: a target whose weight has overflowed (0)
    with its source (1), a target (2) with a source whose weight is
    infinite (3), a finite pair (4, 5), and a target (6) with a source
    whose weight is the negative zero (7). *)
Definition float_targ_inf : FuncObj (gmap string (list float)) (gmap string (list float)) :=
  {| params := {[ "w" := [infinity] ]}; function_state := ∅ |}.
Definition float_src_5 : FuncObj (gmap string (list float)) (gmap string (list float)) :=
  {| params := {[ "w" := [5%float] ]}; function_state := ∅ |}.
Definition float_heap_inf
  : gmap nat (FuncObj (gmap string (list float)) (gmap string (list float))) :=
  {[ 0 := float_targ_inf;
     1 := float_src_5;
     2 := {| params := {[ "w" := [7%float] ]}; function_state := ∅ |};
     3 := {| params := {[ "w" := [infinity] ]}; function_state := ∅ |};
     4 := {| params := {[ "w" := [0.5%float; 2%float] ]}; function_state := ∅ |};
     5 := {| params := {[ "w" := [1%float; 3%float] ]}; function_state := ∅ |};
     6 := {| params := {[ "w" := [3%float] ]}; function_state := ∅ |};
     7 := {| params := {[ "w" := [neg_zero] ]}; function_state := ∅ |} ]}.


(** Squared error, summed over the batch. *)
Definition squared_error (G Q_pred W : ndarray Z) : result Z :=
  d ← sub G Q_pred;
  Ok (fold_right Z.add 0%Z (map (fun x => x * x)%Z (data d))).

(** Differentiation on integer parameters: the forward difference. *)
Definition forward_difference (f : Z → result Z) (θ : Z) : result Z :=
  y1 ← f (θ + 1)%Z;
  y0 ← f θ;
  Ok (y1 - y0)%Z.

(** Plain gradient descent with unit step and no optimizer state. *)
Definition descent (grads : Z) (opt_state : unit) (θ : Z) : Z * unit :=
  ((θ - grads)%Z, tt).

(** An updater over the three-action table q-function; [q] is object
    0 and [q_targ] is the object given. *)
Definition table_updater (q_targ_obj : nat) : TDLearning.t Z unit :=
  {| TDLearning.rule := ql_discrete;
     TDLearning.q_ref := 0;
     TDLearning.q_targ_ref := q_targ_obj;
     TDLearning.pi_targ_ref := None;
     TDLearning.loss_function := squared_error;
     TDLearning.grad := forward_difference;
     TDLearning.optimizer_update := descent |}.

Definition heap_q : gmap nat (FuncObj Z unit) :=
  {[ 0 := {| params := 7%Z; function_state := tt |};
     1 := {| params := 7%Z; function_state := tt |} ]}.

Definition one_batch : TransitionBatch Z := (batch [0] [2] [10] [2] [3])%Z.

(** A worker whose collaborators count the soft updates in the state
    and whose [td_error] fails on a rank check. *)
Definition counting_ops : ApexWorker.Collaborators Z string Z Z Z Z Z Z :=
  {| ApexWorker.tracer_add := fun _ _ _ _ _ st => (Ok tt, st);
     ApexWorker.tracer_flush := fun st => (Ok 0%Z, st);
     ApexWorker.soft_update := fun _ _ _ st => (Ok tt, (st + 1)%Z);
     ApexWorker.td_error := fun _ st => (Raise (AssertionError "bad shape" [1; 1]), st);
     ApexWorker.buffer_add := fun _ _ st => (Ok tt, st);
     ApexWorker.push_setattr := fun _ _ st => (Ok tt, st);
     ApexWorker.env_T := fun st => st |}.

Definition counting_worker : ApexWorker.t Z string Z Z Z Z Z Z :=
  {| ApexWorker.q_updater := {| ApexWorker.q := "q"; ApexWorker.q_targ := "q_targ" |};
     ApexWorker.beta := fun _ => 1%Q;
     ApexWorker.ops := counting_ops |}.

(** A counter environment (the world is the number of steps taken;
    it hands out no [info]) and two arms: the first takes the state
    only, the second also accepts [return_logp]. *)
Definition counter_env : MetaPolicyEnv.Env Z nat Z Z Z unit :=
  {| MetaPolicyEnv.env_reset := fun w => (w, 100%Z);
     MetaPolicyEnv.env_step := fun w act => (S w, Ok (act, 1%Z, false, None));
     MetaPolicyEnv.info_write := fun w _ => w |}.

Definition arm_plain : MetaPolicyEnv.arm Z nat Z Z :=
  {| MetaPolicyEnv.getargspec_args := Ok ["s"];
     MetaPolicyEnv.call := fun w st => (w, Ok (st + 1)%Z);
     MetaPolicyEnv.call_return_logp := fun w st => (w, Ok ((st + 1)%Z, 0%Z)) |}.

Definition arm_logp : MetaPolicyEnv.arm Z nat Z Z :=
  {| MetaPolicyEnv.getargspec_args := Ok ["self"; "s"; "return_logp"];
     MetaPolicyEnv.call := fun w st => (w, Ok (2 * st)%Z);
     MetaPolicyEnv.call_return_logp := fun w st => (w, Ok ((2 * st)%Z, (-1)%Z)) |}.


(** An arm that draws from its random state (the world moves on) and
    then raises. *)
Definition arm_raising : MetaPolicyEnv.arm Z nat Z Z :=
  {| MetaPolicyEnv.getargspec_args := Ok ["s"];
     MetaPolicyEnv.call := fun w st => (S w, Raise (ValueError "no action"));
     MetaPolicyEnv.call_return_logp := fun w st => (S w, Raise (ValueError "no action")) |}.

End Examples.

Module MoreExamples.
Import Examples.

(** The table q-function with a training mode that fails, as a target
    network. *)
Definition q_table_training : Q_t Z := {|
  action_space := Discrete 3;
  function_type1 := fun θ st rng S A is_training =>
    if is_training then Raise (ValueError "training mode")
    else function_type1 q_table θ st rng S A false;
  function_type2 := fun θ st rng S is_training =>
    if is_training then Raise (ValueError "training mode")
    else function_type2 q_table θ st rng S false
|}.

(** A trained q-function over five actions that cannot be evaluated. *)
Definition q_unevaluable : Q_t Z := {|
  action_space := Discrete 5;
  function_type1 := fun _ _ _ _ _ _ => Raise (ValueError "not evaluated");
  function_type2 := fun _ _ _ _ _ => Raise (ValueError "not evaluated")
|}.

Definition ql_twin : QLearning.t Z :=
  {| QLearning.q := q_unevaluable;
     QLearning.pi_targ := None;
     QLearning.q_targ := q_table_training;
     QLearning.value_transform := identity_transform |}.

(** Two samples, the second one terminal. *)
Definition two_batch : TransitionBatch Z :=
  (batch [0; 1] [2; 0] [10; 20] [2; 0] [3; 4])%Z.

(** A floating-point q-function over three actions whose value at the
    second action is the parameter's image under [top]: an estimate
    that has overflowed when [top] gives infinity. *)
Definition q_float (top : float) : Q_t float := {|
  action_space := Discrete 3;
  function_type1 := fun _ st _ S A _ =>
    Ok ({| shape := [length A]; data := map (fun _ => top) A |}, st);
  function_type2 := fun _ st _ S _ =>
    Ok ({| shape := [length S; 3];
           data := flat_map (fun _ => [1%float; top; 2%float]) S |}, st)
|}.

Definition ql_float (top : float) : QLearning.t float :=
  QLearning.super_init (q_float top) None None None.

(** One terminal sample with reward 1. *)
Definition terminal_batch_float : TransitionBatch float :=
  {| S_ := [0%Z]; A_ := [2%Z];
     logp := {| shape := [1]; data := [0%float] |};
     Rn := {| shape := [1]; data := [1%float] |};
     In_ := {| shape := [1]; data := [0%float] |};
     S_next := [3%Z];
     W_ := {| shape := [1]; data := [1%float] |};
     idx := [0] |}.

(** An environment whose [info] has an entry of its own and one under
    the key 'a'.  The world is the number of steps taken and the dict
    the environment last handed out, which it keeps. *)
Definition lives_info : gmap string (MetaPolicyEnv.info_val Z Z unit) :=
  {[ "lives" := MetaPolicyEnv.InfoExtra tt; "a" := MetaPolicyEnv.InfoExtra tt ]}.

Definition lives_env
  : MetaPolicyEnv.Env Z (nat * gmap string (MetaPolicyEnv.info_val Z Z unit)) Z Z Z unit :=
  {| MetaPolicyEnv.env_reset := fun w => (w, 100%Z);
     MetaPolicyEnv.env_step := fun w act =>
       ((S w.1, lives_info), Ok (act, 1%Z, false, Some lives_info));
     MetaPolicyEnv.info_write := fun w d => (w.1, d) |}.

Definition arm_logp_lives
  : MetaPolicyEnv.arm Z (nat * gmap string (MetaPolicyEnv.info_val Z Z unit)) Z Z :=
  {| MetaPolicyEnv.getargspec_args := Ok ["self"; "s"; "return_logp"];
     MetaPolicyEnv.call := fun w st => (w, Ok (2 * st)%Z);
     MetaPolicyEnv.call_return_logp := fun w st => (w, Ok ((2 * st)%Z, (-1)%Z)) |}.

(** A worker over the objects 0 and 1, and one whose [q_targ] is [q]. *)
Definition worker01 : ApexWorkerState.t :=
  {| ApexWorkerState.q := 0; ApexWorkerState.q_targ := 1 |}.
Definition worker00 : ApexWorkerState.t :=
  {| ApexWorkerState.q := 0; ApexWorkerState.q_targ := 0 |}.
Definition store01 : ApexWorkerState.store Z unit :=
  {| ApexWorkerState.heap := heap_q; ApexWorkerState.pi_q := 5 |}.

(** An update that counts its calls in the state and returns the batch
    as TD error. *)
Definition counting_update (b : Z) (st : nat) : result (Z * Z) * nat :=
  (Ok (0%Z, b), S st).

End MoreExamples.

(* ===================================================================== *)
(** * Properties of [QLearning]                                           *)
(* ===================================================================== *)

Ltac unfold_bind := unfold mbind, result_bind, Py.bind in *.

Section QLearningProperties.
Context {V : Type} `{Scalar V} {D : Domain}.
Implicit Types (self : QLearning.t V) (batch : TransitionBatch V).

Lemma td_target_identity_eq (Rn In Q_sa : ndarray V) :
  Spec.td_target identity_transform Rn In Q_sa = Spec.td_target_identity Rn In Q_sa.
Proof.
  unfold Spec.td_target, Spec.td_target_identity, identity_transform.
  unfold_bind. simpl.
  destruct (mul In Q_sa) as [y|e]; [|done].
  by destruct (add Rn y).
Qed.

Lemma max_axis1_table (Q_s : ndarray V) (b k : nat) :
  shape Q_s = [b; k] → k ≠ 0 →
  max_axis1 Q_s = Ok (Spec.greedy_value b k Q_s).
Proof.
  intros Hs Hk. unfold max_axis1. rewrite Hs.
  destruct (Nat.eqb_spec k 0) as [->|_]; done.
Qed.

Lemma max_axis1_ndim (Q_s Q_sa : ndarray V) :
  max_axis1 Q_s = Ok Q_sa → ndim Q_sa = 1.
Proof.
  unfold max_axis1.
  destruct (shape Q_s) as [|b [|k [|? ?]]]; try discriminate.
  destruct (k =? 0); [discriminate|]. by intros [= <-].
Qed.

Lemma getitem_Some {A} (d : gmap string A) (key : string) (x : A) :
  d !! key = Some x → getitem d key = Ok x.
Proof. unfold getitem. by intros ->. Qed.

(** The target in the discrete branch, in terms of the output of the
    type-2 evaluation. *)
Lemma target_func_discrete_eq self tp ts rng batch params state Q_s st' :
  is_Discrete (action_space (QLearning.q self)) = true →
  tp !! "q_targ" = Some params →
  ts !! "q_targ" = Some state →
  function_type2 (QLearning.q_targ self) params state rng (S_next batch) false
    = Ok (Q_s, st') →
  QLearning.target_func self tp ts rng batch =
    (if (ndim Q_s =? 2)%nat
     then Q_sa ← max_axis1 Q_s;
          Spec.td_target (QLearning.value_transform self) (Rn batch) (In_ batch) Q_sa
     else Raise (AssertionError "bad shape" (shape Q_s))).
Proof.
  intros Hd Hp Hs Hq. unfold QLearning.target_func.
  rewrite Hd, (getitem_Some _ _ _ Hp), (getitem_Some _ _ _ Hs).
  unfold_bind. rewrite Hq. unfold assert.
  destruct (ndim Q_s =? 2)%nat; [|done].
  destruct (max_axis1 Q_s) as [Q_sa|e] eqn:Hmax; [|done].
  rewrite (max_axis1_ndim _ _ Hmax). simpl.
  unfold Spec.td_target. unfold_bind.
  by destruct (QLearning.value_transform self) as [f f_inv].
Qed.

(** The target in the other branch, in terms of the output of the
    type-1 evaluation at the mode of the target policy. *)
Lemma target_func_policy_eq self pi tp ts rng batch
    q_params pi_params q_state pi_state dist_params st1 A_next Q_sa st2 :
  is_Discrete (action_space (QLearning.q self)) = false →
  QLearning.pi_targ self = Some pi →
  tp !! "q_targ" = Some q_params → tp !! "pi_targ" = Some pi_params →
  ts !! "q_targ" = Some q_state → ts !! "pi_targ" = Some pi_state →
  function pi pi_params pi_state (next rng).1 (S_next batch) false
    = Ok (dist_params, st1) →
  proba_dist_mode pi dist_params = Ok A_next →
  function_type1 (QLearning.q_targ self) q_params q_state (next (next rng).2).1
    (S_next batch) A_next false = Ok (Q_sa, st2) →
  QLearning.target_func self tp ts rng batch =
    (if (ndim Q_sa =? 1)%nat
     then Spec.td_target (QLearning.value_transform self) (Rn batch) (In_ batch) Q_sa
     else Raise (AssertionError "bad shape" (shape Q_sa))).
Proof.
  intros Hd Hpi Hqp Hpp Hqs Hps Hf Hm Hq. unfold QLearning.target_func.
  rewrite Hd, Hpi, (getitem_Some _ _ _ Hqp), (getitem_Some _ _ _ Hpp),
    (getitem_Some _ _ _ Hqs), (getitem_Some _ _ _ Hps).
  unfold_bind.
  destruct (next rng) as [rng1 rngs] eqn:Hn1. simpl in Hf, Hq.
  destruct (next rngs) as [rng2 rngs'] eqn:Hn2. simpl in Hq.
  rewrite Hf, Hm, Hq. unfold assert.
  destruct (ndim Q_sa =? 1)%nat; [|done].
  unfold Spec.td_target. unfold_bind.
  by destruct (QLearning.value_transform self) as [f f_inv].
Qed.

End QLearningProperties.

Section QLearningClaims.
Context {V : Type} `{Scalar V} {D : Domain}.
Implicit Types (self : QLearning.t V) (batch : TransitionBatch V).

(** C1. Discrete action space of size [k]: [target_func] evaluates the
    target q-function in type-2 mode on [S_next] (with the entries of
    the target dicts under "q_targ", the key [rng] and
    [is_training = False]); when this yields a [batch × k] table [Q_s],
    the bootstrap value [Q_sa] is the maximum over the action axis and
    the result is [f(Rn + In · f⁻¹(Q_sa))] for the configured value
    transform, which is [Rn + In · Q_sa] for the identity pair that is
    the default.  The target policy is not consulted: the result is
    the same whatever [pi_targ] is. *)
Theorem target_func_discrete self tp ts rng batch (b k : nat)
    params state Q_s st' :
  action_space (QLearning.q self) = Discrete k →
  tp !! "q_targ" = Some params →
  ts !! "q_targ" = Some state →
  function_type2 (QLearning.q_targ self) params state rng (S_next batch) false
    = Ok (Q_s, st') →
  shape Q_s = [b; k] →
  k ≠ 0 →
  let Q_sa := Spec.greedy_value b k Q_s in
  QLearning.target_func self tp ts rng batch
    = Spec.td_target (QLearning.value_transform self) (Rn batch) (In_ batch) Q_sa
  ∧ QLearning.target_func self tp ts rng batch
    = Spec.discrete_target (QLearning.q_targ self) (QLearning.value_transform self)
        params state rng b k batch
  ∧ (QLearning.value_transform self = identity_transform →
     QLearning.target_func self tp ts rng batch
       = Spec.td_target_identity (Rn batch) (In_ batch) Q_sa)
  ∧ (∀ pi', QLearning.target_func (QLearning.with_pi_targ pi' self) tp ts rng batch
            = QLearning.target_func self tp ts rng batch).
Proof.
  intros Hsp Hp Hs Hq Hshape Hk Q_sa.
  assert (Hd : is_Discrete (action_space (QLearning.q self)) = true)
    by (by rewrite Hsp).
  assert (Heq : QLearning.target_func self tp ts rng batch
            = Spec.td_target (QLearning.value_transform self)
                (Rn batch) (In_ batch) Q_sa).
  { rewrite (target_func_discrete_eq self tp ts rng batch params state Q_s st')
      by assumption.
    unfold ndim. rewrite Hshape. simpl.
    rewrite (max_axis1_table Q_s b k) by assumption. done. }
  split; [exact Heq|]. split; [|split].
  - rewrite Heq. unfold Spec.discrete_target. unfold_bind. by rewrite Hq.
  - intros Hvt. rewrite Heq, Hvt. apply td_target_identity_eq.
  - intros pi'. rewrite Heq.
    rewrite (target_func_discrete_eq (QLearning.with_pi_targ pi' self) tp ts rng batch
               params state Q_s st') by assumption.
    unfold ndim. rewrite Hshape. simpl.
    rewrite (max_axis1_table Q_s b k) by assumption. done.
Qed.

(** C2. Any other action space, with target policy [pi]:
    [target_func] evaluates the policy's distribution parameters on
    [S_next], takes their mode [A_next] (a function of the
    distribution parameters alone, no key is drawn for it), evaluates
    the target q-function in type-1 mode at [(S_next, A_next)] to get
    [Q_sa], and returns [f(Rn + In · f⁻¹(Q_sa))]; with the identity
    transform this is [Rn + In · Q(S_next, A_next)]. *)
Theorem target_func_policy self pi tp ts rng batch
    q_params pi_params q_state pi_state dist_params st1 A_next Q_sa st2 :
  is_Discrete (action_space (QLearning.q self)) = false →
  QLearning.pi_targ self = Some pi →
  tp !! "q_targ" = Some q_params → tp !! "pi_targ" = Some pi_params →
  ts !! "q_targ" = Some q_state → ts !! "pi_targ" = Some pi_state →
  function pi pi_params pi_state (next rng).1 (S_next batch) false
    = Ok (dist_params, st1) →
  proba_dist_mode pi dist_params = Ok A_next →
  function_type1 (QLearning.q_targ self) q_params q_state (next (next rng).2).1
    (S_next batch) A_next false = Ok (Q_sa, st2) →
  ndim Q_sa = 1 →
  QLearning.target_func self tp ts rng batch
    = Spec.td_target (QLearning.value_transform self) (Rn batch) (In_ batch) Q_sa
  ∧ QLearning.target_func self tp ts rng batch
    = Spec.policy_target (QLearning.q_targ self) pi (QLearning.value_transform self)
        q_params pi_params q_state pi_state (next rng).1 (next (next rng).2).1 batch
  ∧ (QLearning.value_transform self = identity_transform →
     QLearning.target_func self tp ts rng batch
       = Spec.td_target_identity (Rn batch) (In_ batch) Q_sa).
Proof.
  intros Hd Hpi Hqp Hpp Hqs Hps Hf Hm Hq Hrank.
  assert (Heq : QLearning.target_func self tp ts rng batch
            = Spec.td_target (QLearning.value_transform self)
                (Rn batch) (In_ batch) Q_sa).
  { rewrite (target_func_policy_eq self pi tp ts rng batch q_params pi_params
               q_state pi_state dist_params st1 A_next Q_sa st2) by assumption.
    by rewrite Hrank. }
  split; [exact Heq|]. split.
  - rewrite Heq. unfold Spec.policy_target. unfold_bind. by rewrite Hf, Hm, Hq.
  - intros Hvt. rewrite Heq, Hvt. apply td_target_identity_eq.
Qed.

(** C3. [QLearning.__init__]: a non-discrete action space without
    [pi_targ] raises [TypeError] and nothing is constructed; a discrete
    action space with a [pi_targ] constructs the updater and emits the
    warning that [pi_targ] is ignored; the two remaining combinations
    construct it with no warning. *)
Theorem init_consistency_checks (q0 : Q_t V) (pi0 : option Policy)
    (qt : option (Q_t V)) (vt : option (ValueTransform V)) :
  let out := QLearning.__init__ q0 pi0 qt vt in
  let self := QLearning.super_init q0 pi0 qt vt in
  (is_Discrete (action_space q0) = false ∧ pi0 = None →
     out = (Raise (TypeError "pi_targ must be provided if action space is not discrete"),
            []))
  ∧ (is_Discrete (action_space q0) = true ∧ is_Some pi0 →
     out = (Ok self,
            [QLearning.UserWarning "pi_targ is ignored, because action space is discrete"]))
  ∧ (is_Discrete (action_space q0) = true ∧ pi0 = None → out = (Ok self, []))
  ∧ (is_Discrete (action_space q0) = false ∧ is_Some pi0 → out = (Ok self, [])).
Proof.
  unfold QLearning.__init__, QLearning.super_init. simpl.
  repeat split; intros [Hd Hpi]; rewrite Hd;
    try (destruct Hpi as [pi ->]); try (rewrite Hpi); done.
Qed.

(** C4. The rank checks of [target_func].  Discrete branch: a type-2
    output [Q_s] that is not two-dimensional makes the call raise
    [AssertionError] (reporting the shape); a two-dimensional one
    passes, its maximum over axis 1 is one-dimensional, and so the
    second check passes too.  Other branch: a type-1 output [Q_sa]
    that is not one-dimensional makes the call raise [AssertionError];
    a one-dimensional one passes.  When the checks pass the call is
    the target formula applied to [Q_sa], with no reshaping in
    between. *)
Theorem target_func_rank_checks self tp ts rng batch :
  (∀ params state Q_s st',
     is_Discrete (action_space (QLearning.q self)) = true →
     tp !! "q_targ" = Some params → ts !! "q_targ" = Some state →
     function_type2 (QLearning.q_targ self) params state rng (S_next batch) false
       = Ok (Q_s, st') →
     (ndim Q_s ≠ 2 →
      QLearning.target_func self tp ts rng batch
        = Raise (AssertionError "bad shape" (shape Q_s)))
     ∧ (ndim Q_s = 2 →
        (∀ Q_sa, max_axis1 Q_s = Ok Q_sa → ndim Q_sa = 1)
        ∧ QLearning.target_func self tp ts rng batch
          = (Q_sa ← max_axis1 Q_s;
             Spec.td_target (QLearning.value_transform self)
               (Rn batch) (In_ batch) Q_sa)))
  ∧ (∀ pi q_params pi_params q_state pi_state dist_params st1 A_next Q_sa st2,
       is_Discrete (action_space (QLearning.q self)) = false →
       QLearning.pi_targ self = Some pi →
       tp !! "q_targ" = Some q_params → tp !! "pi_targ" = Some pi_params →
       ts !! "q_targ" = Some q_state → ts !! "pi_targ" = Some pi_state →
       function pi pi_params pi_state (next rng).1 (S_next batch) false
         = Ok (dist_params, st1) →
       proba_dist_mode pi dist_params = Ok A_next →
       function_type1 (QLearning.q_targ self) q_params q_state (next (next rng).2).1
         (S_next batch) A_next false = Ok (Q_sa, st2) →
       (ndim Q_sa ≠ 1 →
        QLearning.target_func self tp ts rng batch
          = Raise (AssertionError "bad shape" (shape Q_sa)))
       ∧ (ndim Q_sa = 1 →
          QLearning.target_func self tp ts rng batch
            = Spec.td_target (QLearning.value_transform self)
                (Rn batch) (In_ batch) Q_sa)).
Proof.
  split.
  - intros params state Q_s st' Hd Hp Hs Hq.
    rewrite (target_func_discrete_eq self tp ts rng batch params state Q_s st')
      by assumption.
    split.
    + intros Hn. by destruct (Nat.eqb_spec (ndim Q_s) 2).
    + intros Hn. rewrite Hn. split; [|done].
      intros Q_sa. apply max_axis1_ndim.
  - intros pi q_params pi_params q_state pi_state dist_params st1 A_next Q_sa st2
      Hd Hpi Hqp Hpp Hqs Hps Hf Hm Hq.
    rewrite (target_func_policy_eq self pi tp ts rng batch q_params pi_params
               q_state pi_state dist_params st1 A_next Q_sa st2) by assumption.
    split.
    + intros Hn. by destruct (Nat.eqb_spec (ndim Q_sa) 1).
    + intros Hn. by rewrite Hn.
Qed.

(** C5. [target_func] reads only [Rn], [In] and [S_next] of the
    batch: two batches that agree on these three fields get the same
    target (for the same updater, target dicts and key), whatever
    their [S], [A], [logp], [W] and [idx] are.  In particular the
    target does not depend on the action that was taken. *)
Theorem target_func_reads_Rn_In_S_next self tp ts rng (batch1 batch2 : TransitionBatch V) :
  Rn batch1 = Rn batch2 →
  In_ batch1 = In_ batch2 →
  S_next batch1 = S_next batch2 →
  QLearning.target_func self tp ts rng batch1
    = QLearning.target_func self tp ts rng batch2.
Proof.
  intros HR HI HS. unfold QLearning.target_func.
  by rewrite HR, HI, HS.
Qed.

End QLearningClaims.

Section QLearningExamples.
Import Examples.

Lemma fold_left_Zmax_upper (l : list Z) (a : Z) :
  (a ≤ fold_left Z.max l a)%Z ∧ ∀ y, y ∈ l → (y ≤ fold_left Z.max l a)%Z.
Proof.
  revert a. induction l as [|z l IH]; intros a; simpl.
  - split; [lia|]. intros y Hy. by apply elem_of_nil in Hy.
  - destruct (IH (Z.max a z)) as [Ha Hl]. split; [lia|].
    intros y [->|Hy]%elem_of_cons; [lia|]. by apply Hl.
Qed.

Lemma fold_left_Zmax_attained (l : list Z) (a : Z) :
  fold_left Z.max l a ∈ a :: l.
Proof.
  revert a. induction l as [|z l IH]; intros a; simpl.
  - left.
  - specialize (IH (Z.max a z)).
    apply elem_of_cons in IH as [Heq|Hin].
    + rewrite Heq. destruct (Z.max_spec a z) as [[_ ->]|[_ ->]].
      * right. left.
      * left.
    + right. by right.
Qed.

(** On integers [row_max] is the greatest element of a non-empty
    row: the bootstrap value of a sample is the value of its best
    action. *)
Lemma row_max_Z_greatest (x : Z) (xs : list Z) :
  row_max (x :: xs) ∈ x :: xs
  ∧ ∀ y, y ∈ x :: xs → (y ≤ row_max (x :: xs))%Z.
Proof.
  simpl. split; [apply fold_left_Zmax_attained|].
  destruct (fold_left_Zmax_upper xs x) as [Hx Hxs].
  intros y [->|Hy]%elem_of_cons; [done|]. by apply Hxs.
Qed.

Lemma target_func_discrete_witness :
  QLearning.target_func ql_discrete targ_params targ_state 1
    (batch [0] [2] [10] [2] [3])%Z
  = Ok (vec [20%Z]).
Proof.
  destruct (target_func_discrete ql_discrete targ_params targ_state 1
              (batch [0] [2] [10] [2] [3])%Z 1 3 7%Z tt
              {| shape := [1; 3]; data := [1; 5; 2]%Z |} tt)
    as [Heq _]; [reflexivity | reflexivity | reflexivity | reflexivity
                | reflexivity | lia |].
  rewrite Heq. reflexivity.
Defined.

Lemma target_func_policy_witness :
  QLearning.target_func ql_box targ_params targ_state 1
    (batch [0] [2] [10] [2] [3])%Z
  = Ok (vec [36%Z]).
Proof.
  destruct (target_func_policy ql_box pi_double targ_params targ_state 1
              (batch [0] [2] [10] [2] [3])%Z 7%Z 0%Z tt tt [6%Z] tt [6%Z]
              (vec [13%Z]) tt)
    as [Heq _]; [reflexivity | reflexivity | reflexivity | reflexivity
                | reflexivity | reflexivity | reflexivity | reflexivity
                | reflexivity | reflexivity |].
  rewrite Heq. reflexivity.
Defined.

(** The table [[1, 5, 2]] gives [Q_sa = 5], and the target is the same
    whether action 0 or action 2 was taken. *)
Lemma target_func_reads_Rn_In_S_next_witness :
  Spec.greedy_value 1 3 {| shape := [1; 3]; data := [1; 5; 2]%Z |} = vec [5%Z]
  ∧ QLearning.target_func ql_discrete targ_params targ_state 1
      (batch [0] [0] [10] [2] [3])%Z
    = QLearning.target_func ql_discrete targ_params targ_state 1
        (batch [8] [2] [10] [2] [3])%Z.
Proof.
  split; [reflexivity|].
  apply (target_func_reads_Rn_In_S_next ql_discrete targ_params targ_state 1
           (batch [0] [0] [10] [2] [3])%Z (batch [8] [2] [10] [2] [3])%Z);
    reflexivity.
Defined.

(** Construction: the four combinations on concrete q-functions. *)
Example init_box_without_pi_targ :
  QLearning.__init__ q_box None None None
  = (Raise (TypeError "pi_targ must be provided if action space is not discrete"), []).
Proof. reflexivity. Qed.

Example init_discrete_with_pi_targ :
  QLearning.__init__ q_table (Some pi_double) None None
  = (Ok (QLearning.super_init q_table (Some pi_double) None None),
     [QLearning.UserWarning "pi_targ is ignored, because action space is discrete"]).
Proof. reflexivity. Qed.

Example init_discrete_without_pi_targ :
  QLearning.__init__ q_table None None None = (Ok ql_discrete, []).
Proof. reflexivity. Qed.

Example init_box_with_pi_targ :
  QLearning.__init__ q_box (Some pi_double) None None = (Ok ql_box, []).
Proof. reflexivity. Qed.

(** Rank violations: a three-dimensional type-2 output and a
    two-dimensional type-1 output are reported, not reshaped. *)
Example target_func_bad_rank_discrete :
  QLearning.target_func
    (QLearning.super_init (q_bad_rank (Discrete 3)) None None None)
    targ_params targ_state 1 (batch [0] [2] [10] [2] [3])%Z
  = Raise (AssertionError "bad shape" [1; 3; 1]).
Proof. reflexivity. Qed.

Example target_func_bad_rank_box :
  QLearning.target_func
    (QLearning.super_init (q_bad_rank (Box [1])) (Some pi_double) None None)
    targ_params targ_state 1 (batch [0] [2] [10] [2] [3])%Z
  = Raise (AssertionError "bad shape" [1; 1]).
Proof. reflexivity. Qed.

End QLearningExamples.

(* ===================================================================== *)
(** * Properties of [MetaPolicyEnv]                                       *)
(* ===================================================================== *)

Section MetaPolicyEnvProperties.
Context {V : Type} `{Scalar V} {World Obs Action Reward Extra : Type}.
Import MetaPolicyEnv.
Abbreviation wrapper := (MetaPolicyEnv.t V World Obs Action Reward Extra).
Abbreviation arm_t := (MetaPolicyEnv.arm V World Obs Action).
Abbreviation env_t := (MetaPolicyEnv.Env V World Obs Action Reward Extra).
Implicit Types (self : wrapper) (w : World) (pi : arm_t).

Lemma contains_Discrete (n : nat) (x : pyobj) :
  contains (Discrete n) x = true ↔ ∃ z, x = PyInt z ∧ (0 ≤ z < Z.of_nat n)%Z.
Proof.
  split.
  - destruct x as [z| | |]; simpl; try discriminate.
    intros [H1 H2]%andb_prop. exists z. split; [done|]. lia.
  - intros (z & -> & Hz). simpl. apply andb_true_intro. split; lia.
Qed.




(** Whatever [step] does, it assigns no attribute but [_s], and [_s]
    only to the observation of a returned environment step. *)
Lemma step_wrapper self w (a_meta : pyobj) :
  match step self w a_meta with
  | (Ok (s', _, _, _), self', _) =>
      self' = {| env := env self; arms := arms self;
                 action_space := action_space self; _s := Some s' |}
      ∧ is_Some (_s self)
  | (Raise _, self', _) => self' = self
  end.
Proof.
  unfold step.
  destruct (contains (action_space self) a_meta); simpl; [|done].
  destruct (_s self) as [s|]; [|done].
  destruct a_meta as [z| | |]; try done.
  destruct (arms_getitem (arms self) z) as [pi|e]; [|done].
  destruct (sample_arm pi w s) as [w1 [[a logp]|e]]; [|done].
  destruct (env_step (env self) w1 a) as [w2 [[[[s' r] dn] info]|e]]; [|done].
  split; [done|eauto].
Qed.

Lemma do_call_inv (env0 : env_t) (arms0 : list arm_t) (b : bool) (st : wrapper * World) (c : method_call) :
  wrapper_inv env0 arms0 b st →
  wrapper_inv env0 arms0 (b || is_reset c) (do_call st c).
Proof.
  intros (He & Ha & Hsp & Hs). destruct st as [self w]. simpl in *.
  destruct c as [|a_meta]; simpl.
  - unfold reset. destruct (env_reset (env self) w) as [w' s]. simpl.
    rewrite orb_true_r. repeat split; eauto.
  - rewrite orb_false_r.
    pose proof (step_wrapper self w a_meta) as Hstep.
    destruct (step self w a_meta) as [[[[[[s' r] dn] info]|e] self'] w']; simpl.
    + destruct Hstep as [-> Hsome]. simpl. repeat split; try done.
      intros _. by apply Hs.
    + by subst self'.
Qed.

Lemma after_calls_inv (env0 : env_t) (arms0 : list arm_t) w0 (calls : list method_call) :
  wrapper_inv env0 arms0 (existsb is_reset calls) (after_calls env0 arms0 w0 calls).
Proof.
  unfold after_calls.
  assert (Hgen : ∀ cs b st, wrapper_inv env0 arms0 b st →
            wrapper_inv env0 arms0 (b || existsb is_reset cs) (fold_left do_call cs st)).
  { induction cs as [|c cs IH]; intros b st Hinv; simpl.
    - by rewrite orb_false_r.
    - rewrite orb_assoc. apply IH. by apply do_call_inv. }
  apply (Hgen calls false). repeat split; simpl; try done.
Qed.

End MetaPolicyEnvProperties.

Section MetaPolicyEnvClaims.
Context {V : Type} `{Scalar V} {World Obs Action Reward Extra : Type}.
Import MetaPolicyEnv.


End MetaPolicyEnvClaims.

(* ===================================================================== *)
(** * Properties of [ApexWorker]                                          *)
(* ===================================================================== *)

Section ApexWorkerClaims.
Context {St QRef Obs Action Reward Logp Batch TdError : Type}.
Import ApexWorker.
Abbreviation worker := (ApexWorker.t St QRef Obs Action Reward Logp Batch TdError).
Abbreviation event_t := (ApexWorker.event QRef Obs Action Reward Logp Batch TdError).

(** C9. Every call of [ApexWorker.trace] in which the transition is
    traced ([tracer.add] returns) calls
    [q_targ.soft_update(q, tau=0.001)], exactly once and right after
    [tracer.add], on the state [tracer.add] left: whether [done] holds
    or not, and whatever the calls that follow on [done] ([flush],
    [td_error], [buffer_add], [push_setattr]) do.  When [done] is false
    the soft update is the only further call. *)
Theorem trace_soft_update (self : worker) (s : Obs) (a : Action) (r : Reward)
    (done : bool) (logp : Logp) (st st1 : St) (log : list event_t) :
  tracer_add (ops self) s a r done logp st = (Ok tt, st1) →
  let su := soft_update (ops self) (q_targ_ self) (q_ self) (1 # 1000) st1 in
  ∃ res st2 rest,
    trace self s a r done logp (st, log)
      = (res, (st2, log ++ [TracerAdd s a r done logp;
                            SoftUpdate (q_targ_ self) (q_ self) (1 # 1000)] ++ rest))
    ∧ forallb (fun e => negb (is_SoftUpdate e)) rest = true
    ∧ (done = false → rest = [] ∧ (res, st2) = su)
    ∧ (∀ e, su.1 = Raise e → rest = [] ∧ (res, st2) = su).
Proof.
  intros Hadd su. unfold trace, bind, call, read, ret. simpl. rewrite Hadd. simpl.
  subst su. destruct (soft_update (ops self) _ _ _ st1) as [[[]|e] st_su]; simpl.
  - destruct done; simpl.
    + destruct (tracer_flush (ops self) st_su) as [[tb|e] st3]; simpl.
      * destruct (td_error (ops self) tb st3) as [[td|e] st4]; simpl.
        -- destruct (buffer_add (ops self) tb td st4) as [[[]|e] st5]; simpl.
           ++ destruct (push_setattr (ops self) "buffer.beta" _ st5) as [res st6]. simpl.
              eexists _, _, _. rewrite <- !app_assoc. simpl.
              split; [reflexivity|]. repeat split; done.
           ++ eexists _, _, _. rewrite <- !app_assoc. simpl.
              split; [reflexivity|]. repeat split; done.
        -- eexists _, _, _. rewrite <- !app_assoc. simpl.
           split; [reflexivity|]. repeat split; done.
      * eexists _, _, _. rewrite <- !app_assoc. simpl.
        split; [reflexivity|]. repeat split; done.
    + exists (Ok tt), st_su, []. rewrite <- !app_assoc. simpl.
      repeat split; done.
  - exists (Raise e), st_su, []. rewrite <- !app_assoc. simpl.
    repeat split; done.
Qed.

End ApexWorkerClaims.

(* ===================================================================== *)
(** * Properties of the soft update                                       *)
(* ===================================================================== *)

Section TargetSyncExact.
Context {V : Type} `{Scalar V} `{!ScalarLaws V}.
Import TargetSync.


Lemma blend_zero (a b : V) : blend szero a b = a.
Proof. unfold blend. by rewrite ssub_0_r, smul_1_l, smul_0_l, sadd_0_r. Qed.

Lemma blend_same (tau a : V) : blend tau a a = a.
Proof. apply sblend_same. Qed.

End TargetSyncExact.

Section TargetSyncProperties.
Context {V : Type} `{Scalar V}.
Import TargetSync.
Implicit Types (ta tb : gmap string (list V)) (x y : list V) (tau : V).







Lemma FuncObj_eta {P S : Type} (o : FuncObj P S) :
  {| params := params o; function_state := function_state o |} = o.
Proof. by destruct o. Qed.


End TargetSyncProperties.

#[export] Instance Z_ScalarLaws : ScalarLaws Z.
Proof. split; intros; simpl; lia. Qed.

Section TargetSyncExamples.
Import Examples TargetSync.


(** With [τ = 0] nothing moves. *)
Example soft_update_tau_zero : soft_update 0 1 0%Z heap01 = heap01.
Proof. reflexivity. Qed.


Example soft_update_float_finite :
  params <$> soft_update 4 5 1%float float_heap_inf !! 4
  = params <$> float_heap_inf !! 5.
Proof. reflexivity. Qed.

End TargetSyncExamples.

(* ===================================================================== *)
(** * Properties of the reward tracer                                     *)
(* ===================================================================== *)

Section NStepProperties.
Context {V : Type} `{Scalar V} {State Action : Type}.
Import NStep.
Abbreviation transition := (NStep.Transition V State Action).
Abbreviation tracer := (NStep.t V State Action).
Variable choice : transition → list transition → State.

Hypothesis smul_one_l : ∀ x : V, smul sone x = x.
Hypothesis smul_one_r : ∀ x : V, smul x sone = x.
Hypothesis sadd_zero_r : ∀ x : V, sadd x szero = x.







End NStepProperties.

Section NStepExamples.
Import NStep.






(** Two-step windows: the first window is complete when the third
    transition arrives; the terminal transition flushes the rest. *)
Example nstep_two_step_windows :
  map (fun b => (S_ b, Rn b, In_ b, S_next b))
    (run (fun first _ => s first) (init 2 2%Z)
       [ {| s := "s0"; a := "a0"; r := 1%Z; done := false; logp := 0%Z |};
         {| s := "s1"; a := "a1"; r := 10%Z; done := false; logp := 0%Z |};
         {| s := "s2"; a := "a2"; r := 100%Z; done := true; logp := 0%Z |} ])
  = [ ("s0", 21%Z, 4%Z, "s2"); ("s1", 210%Z, 0%Z, "s1"); ("s2", 100%Z, 0%Z, "s2") ].
Proof. reflexivity. Qed.

End NStepExamples.

(* ===================================================================== *)
(** * Properties of the TD-learning update                                *)
(* ===================================================================== *)

Section TDLearningProperties.
Context {V : Type} `{Scalar V} {D : Domain} {OptState : Type}.
Import TDLearning.
Implicit Types (self : TDLearning.t V OptState)
  (h : gmap nat (FuncObj Params FState)) (batch : TransitionBatch V).



End TDLearningProperties.

Section TDLearningClaims.
Context {V : Type} `{Scalar V} {D : Domain} {OptState : Type}.
Import TDLearning.
Implicit Types (self : TDLearning.t V OptState)
  (h : gmap nat (FuncObj Params FState)) (batch : TransitionBatch V).


End TDLearningClaims.

Section TDLearningExamples.
Import Examples TDLearning.


Example update_moves_q :
  (update (table_updater 1) heap_q tt 1 one_batch).1.2 !! 0
  = Some {| params := 28%Z; function_state := tt |}.
Proof. reflexivity. Qed.


End TDLearningExamples.

Section ApexWorkerExamples.
Import Examples ApexWorker.

Lemma trace_soft_update_witness :
  ∃ res st2 rest,
    trace counting_worker 0%Z 0%Z 1%Z true 0%Z (0%Z, [])
    = (res, (st2, [TracerAdd 0%Z 0%Z 1%Z true 0%Z;
                   SoftUpdate "q_targ" "q" (1 # 1000)] ++ rest)).
Proof.
  destruct (trace_soft_update counting_worker 0%Z 0%Z 1%Z true 0%Z 0%Z 0%Z [] eq_refl)
    as (res & st2 & rest & Htrace & _).
  exists res, st2, rest. exact Htrace.
Defined.

(** The soft update has happened although the call ends in the
    exception of [td_error]. *)
Example trace_done_td_error_raises :
  trace counting_worker 0%Z 0%Z 1%Z true 0%Z (0%Z, [])
  = (Raise (AssertionError "bad shape" [1; 1]),
     (1%Z, [TracerAdd 0%Z 0%Z 1%Z true 0%Z; SoftUpdate "q_targ" "q" (1 # 1000);
            TracerFlush; TdErrorCall 0%Z])).
Proof. reflexivity. Qed.

Example trace_not_done :
  trace counting_worker 0%Z 0%Z 1%Z false 0%Z (0%Z, [])
  = (Ok tt, (1%Z, [TracerAdd 0%Z 0%Z 1%Z false 0%Z; SoftUpdate "q_targ" "q" (1 # 1000)])).
Proof. reflexivity. Qed.

End ApexWorkerExamples.

Section MetaPolicyEnvExamples.
Import Examples MetaPolicyEnv.

Example step_before_reset :
  (step (__init__ counter_env [arm_plain; arm_logp]) 0 (PyInt 0)).1.1
  = Raise (AssertionError "please call env.reset() first" []).
Proof. reflexivity. Qed.

Example step_invalid_a_meta :
  (step (after_calls counter_env [arm_plain; arm_logp] 0 [CallReset]).1 0 (PyInt 2)).1.1
  = Raise (AssertionError "a_meta is invalid" []).
Proof. reflexivity. Qed.

Example step_plain_arm :
  (step (after_calls counter_env [arm_plain; arm_logp] 0 [CallReset]).1 0 (PyInt 0)).1.1
  = Ok (101%Z, 1%Z, false,
        {[ "a" := InfoAction 101%Z; "logp" := InfoLogp 0%Z ]}).
Proof. reflexivity. Qed.

Example step_logp_arm :
  (step (after_calls counter_env [arm_plain; arm_logp] 0 [CallReset]).1 0 (PyInt 1)).1.1
  = Ok (200%Z, 1%Z, false,
        {[ "a" := InfoAction 200%Z; "logp" := InfoLogp (-1)%Z ]}).
Proof. reflexivity. Qed.


(** An arm that raises after it has run: the exception propagates, the
    world has moved on, the wrapper has not. *)
Example step_arm_raises :
  step (after_calls counter_env [arm_raising] 0 [CallReset]).1 0 (PyInt 0)
  = (Raise (ValueError "no action"),
     (after_calls counter_env [arm_raising] 0 [CallReset]).1, 1).
Proof. reflexivity. Qed.

End MetaPolicyEnvExamples.

(* ===================================================================== *)
(** * Further properties of [QLearning.target_func]                       *)
(* ===================================================================== *)

Section ArrayFacts.
Context {V : Type} `{Scalar V}.

Lemma length_rows (b k : nat) (xs : list V) : length (rows b k xs) = b.
Proof. revert xs. induction b as [|b IH]; intros xs; simpl; [done|]. by rewrite IH. Qed.

(** On two vectors of the same length the broadcast operations are
    the pointwise ones. *)
Lemma elementwise_vec (op : V → V → V) (x y : ndarray V) (n : nat) :
  shape x = [n] → shape y = [n] →
  length (data x) = n → length (data y) = n →
  elementwise op x y = Ok {| shape := [n]; data := zip_with op (data x) (data y) |}.
Proof.
  intros Hx Hy Hlx Hly. unfold elementwise, broadcast_shapes. rewrite Hx, Hy. simpl.
  rewrite Nat.eqb_refl. simpl. do 2 f_equal.
  rewrite Nat.mul_1_r. apply list_eq. intros i.
  rewrite list_lookup_fmap, lookup_zip_with.
  destruct (decide (i < n)) as [Hi|Hi].
  - rewrite lookup_seq_lt by done. simpl.
    assert (Hidx : (if n =? 1 then 0 else i mod n) * 1 + 0 = i).
    { destruct (Nat.eqb_spec n 1) as [->|_]; [lia|].
      rewrite Nat.mod_small by done. lia. }
    rewrite Hidx.
    destruct (lookup_lt_is_Some_2 (data x) i) as [a Ha]; [lia|].
    destruct (lookup_lt_is_Some_2 (data y) i) as [b Hb]; [lia|].
    rewrite Ha, Hb. simpl.
    by rewrite (nth_lookup_Some _ _ _ _ Ha), (nth_lookup_Some _ _ _ _ Hb).
  - rewrite lookup_seq_ge by lia. simpl.
    rewrite (lookup_ge_None_2 (data x)) by lia. done.
Qed.

Lemma rows_lookup (b k : nat) (xs : list V) (i : nat) :
  i < b → rows b k xs !! i = Some (take k (drop (i * k) xs)).
Proof.
  revert xs i. induction b as [|b IH]; intros xs i Hi; [lia|].
  destruct i as [|i]; simpl; [done|].
  rewrite IH by lia. by rewrite drop_drop.
Qed.

End ArrayFacts.

Section QLearningFurther.
Context {V : Type} `{Scalar V} {D : Domain}.
Implicit Types (self : QLearning.t V) (batch : TransitionBatch V).

(** The discrete target of a batch of [b] samples under the identity
    transform, as an explicit vector. *)
Lemma target_func_discrete_vector self tp ts rng batch (b k : nat)
    params state Q_s st' :
  action_space (QLearning.q self) = Discrete k →
  QLearning.value_transform self = identity_transform →
  tp !! "q_targ" = Some params →
  ts !! "q_targ" = Some state →
  function_type2 (QLearning.q_targ self) params state rng (S_next batch) false
    = Ok (Q_s, st') →
  shape Q_s = [b; k] → k ≠ 0 →
  shape (Rn batch) = [b] → length (data (Rn batch)) = b →
  shape (In_ batch) = [b] → length (data (In_ batch)) = b →
  QLearning.target_func self tp ts rng batch
  = Ok {| shape := [b];
          data := zip_with sadd (data (Rn batch))
                    (zip_with smul (data (In_ batch))
                       (map row_max (rows b k (data Q_s)))) |}.
Proof.
  intros Hsp Hvt Hp Hs Hq Hshape Hk HRs HRl HIs HIl.
  assert (Hd : is_Discrete (action_space (QLearning.q self)) = true)
    by (by rewrite Hsp).
  rewrite (target_func_discrete_eq self tp ts rng batch params state Q_s st')
    by assumption.
  unfold ndim. rewrite Hshape. simpl.
  rewrite (max_axis1_table Q_s b k) by assumption.
  unfold_bind. rewrite Hvt, td_target_identity_eq.
  unfold Spec.td_target_identity, mul, add.
  rewrite (elementwise_vec smul (In_ batch) (Spec.greedy_value b k Q_s) b);
    [|done|done|done|by simpl; rewrite length_map, length_rows].
  unfold_bind.
  rewrite (elementwise_vec sadd (Rn batch) _ b);
    [done|done|done|done|].
  simpl. rewrite length_zip_with, length_map, length_rows. lia.
Qed.

(** X1. [target_func] reads the two target dicts only at the key
    "q_targ" and, when the action space is not discrete, at the key
    "pi_targ": dicts that agree on these entries give the same result,
    whatever else they hold. *)
Theorem target_func_reads_target_entries self
    (tp tp' : gmap string Params) (ts ts' : gmap string FState) rng batch :
  tp !! "q_targ" = tp' !! "q_targ" →
  ts !! "q_targ" = ts' !! "q_targ" →
  (is_Discrete (action_space (QLearning.q self)) = false →
   tp !! "pi_targ" = tp' !! "pi_targ" ∧ ts !! "pi_targ" = ts' !! "pi_targ") →
  QLearning.target_func self tp ts rng batch
  = QLearning.target_func self tp' ts' rng batch.
Proof.
  intros Hq Hs Hpi. unfold QLearning.target_func, getitem.
  destruct (is_Discrete (action_space (QLearning.q self))).
  - by rewrite Hq, Hs.
  - destruct Hpi as [Hp1 Hp2]; [done|]. by rewrite Hq, Hs, Hp1, Hp2.
Qed.

(** X2. [target_func] evaluates only the target functions, only with
    [is_training = False], and drops the function states they return:
    two updaters get the same target when their action spaces are both
    discrete or both not, their target q-functions and target policies
    return the same values in evaluation mode, and their value
    transforms agree.  The trained q-function's own evaluation modes
    and any behaviour in training mode do not matter. *)
Theorem target_func_evaluation_mode_only self self' tp ts rng batch :
  is_Discrete (action_space (QLearning.q self))
    = is_Discrete (action_space (QLearning.q self')) →
  (∀ p s r S,
     value_of (function_type2 (QLearning.q_targ self) p s r S false)
     = value_of (function_type2 (QLearning.q_targ self') p s r S false)) →
  (∀ p s r S A,
     value_of (function_type1 (QLearning.q_targ self) p s r S A false)
     = value_of (function_type1 (QLearning.q_targ self') p s r S A false)) →
  match QLearning.pi_targ self, QLearning.pi_targ self' with
  | Some pi, Some pi' =>
      (∀ p s r S, value_of (function pi p s r S false)
                  = value_of (function pi' p s r S false))
      ∧ (∀ d, proba_dist_mode pi d = proba_dist_mode pi' d)
  | None, None => True
  | _, _ => False
  end →
  (∀ x, (QLearning.value_transform self).1 x = (QLearning.value_transform self').1 x) →
  (∀ x, (QLearning.value_transform self).2 x = (QLearning.value_transform self').2 x) →
  QLearning.target_func self tp ts rng batch
  = QLearning.target_func self' tp ts rng batch.
Proof.
  intros Hd H2 H1 Hpi Hf Hfi. unfold QLearning.target_func.
  rewrite <- Hd.
  destruct (QLearning.value_transform self) as [f f_inv].
  destruct (QLearning.value_transform self') as [f' f_inv']. simpl in Hf, Hfi.
  assert (Htail : ∀ Q_sa : ndarray V,
    (_ ← assert (ndim Q_sa =? 1) (AssertionError "bad shape" (shape Q_sa));
     y ← f_inv Q_sa; z ← mul (In_ batch) y; g ← add (Rn batch) z; f g)
    = (_ ← assert (ndim Q_sa =? 1) (AssertionError "bad shape" (shape Q_sa));
       y ← f_inv' Q_sa; z ← mul (In_ batch) y; g ← add (Rn batch) z; f' g)).
  { intros Q_sa. unfold_bind. destruct (assert _ _); [|done].
    rewrite Hfi. destruct (f_inv' Q_sa) as [y|]; [|done].
    destruct (mul (In_ batch) y) as [z|]; [|done].
    destruct (add (Rn batch) z) as [g|]; [|done]. apply Hf. }
  destruct (is_Discrete (action_space (QLearning.q self))).
  - unfold_bind.
    destruct (getitem tp "q_targ") as [p|]; [|done].
    destruct (getitem ts "q_targ") as [s|]; [|done].
    specialize (H2 p s rng (S_next batch)).
    destruct (function_type2 (QLearning.q_targ self) p s rng (S_next batch) false)
      as [[Q_s st1]|e1],
      (function_type2 (QLearning.q_targ self') p s rng (S_next batch) false)
      as [[Q_s' st2]|e2]; simpl in H2; simplify_eq; [|done].
    destruct (assert (ndim Q_s' =? 2) _); [|done].
    destruct (max_axis1 Q_s') as [Q_sa|]; [|done].
    apply (Htail Q_sa).
  - unfold_bind.
    destruct (getitem tp "pi_targ") as [pp|]; [|done].
    destruct (getitem ts "pi_targ") as [ps|]; [|done].
    destruct (QLearning.pi_targ self) as [pi|], (QLearning.pi_targ self') as [pi'|];
      try done.
    destruct Hpi as [Hfun Hmode].
    destruct (next rng) as [rng1 rngs].
    specialize (Hfun pp ps rng1 (S_next batch)).
    destruct (function pi pp ps rng1 (S_next batch) false) as [[dp st1]|e1],
      (function pi' pp ps rng1 (S_next batch) false) as [[dp' st2]|e2];
      simpl in Hfun; simplify_eq; [|done].
    rewrite Hmode. destruct (proba_dist_mode pi' dp') as [A_next|]; [|done].
    destruct (getitem tp "q_targ") as [p|]; [|done].
    destruct (getitem ts "q_targ") as [s|]; [|done].
    destruct (next rngs) as [rng2 rngs'].
    specialize (H1 p s rng2 (S_next batch) A_next).
    destruct (function_type1 (QLearning.q_targ self) p s rng2 (S_next batch) A_next false)
      as [[Q_sa st3]|e3],
      (function_type1 (QLearning.q_targ self') p s rng2 (S_next batch) A_next false)
      as [[Q_sa' st4]|e4]; simpl in H1; simplify_eq; [|done].
    apply (Htail Q_sa').
Qed.

(** X3. Discrete actions, identity transform, a batch of [b] samples
    with one-dimensional [Rn] and [In]: the target is a vector of [b]
    values, and sample [i] gets [Rn[i] + In[i] · max_a Q_s[i, a]], the
    maximum being over row [i] of the table alone. *)
Theorem target_func_per_sample self tp ts rng batch (b k : nat)
    params state Q_s st' :
  action_space (QLearning.q self) = Discrete k →
  QLearning.value_transform self = identity_transform →
  tp !! "q_targ" = Some params →
  ts !! "q_targ" = Some state →
  function_type2 (QLearning.q_targ self) params state rng (S_next batch) false
    = Ok (Q_s, st') →
  shape Q_s = [b; k] → k ≠ 0 →
  shape (Rn batch) = [b] → length (data (Rn batch)) = b →
  shape (In_ batch) = [b] → length (data (In_ batch)) = b →
  ∃ G, QLearning.target_func self tp ts rng batch = Ok G
       ∧ shape G = [b]
       ∧ length (data G) = b
       ∧ ∀ (i : nat), i < b →
           ∃ rn inn row,
             data (Rn batch) !! i = Some rn
             ∧ data (In_ batch) !! i = Some inn
             ∧ row = take k (drop (i * k) (data Q_s))
             ∧ data G !! i = Some (sadd rn (smul inn (row_max row))).
Proof.
  intros Hsp Hvt Hp Hs Hq Hshape Hk HRs HRl HIs HIl.
  eexists. split.
  { by apply (target_func_discrete_vector self tp ts rng batch b k params state Q_s st'). }
  simpl. split; [done|].
  split; [rewrite !length_zip_with, length_map, length_rows; lia|].
  intros i Hi.
  destruct (lookup_lt_is_Some_2 (data (Rn batch)) i) as [rn Hrn]; [lia|].
  destruct (lookup_lt_is_Some_2 (data (In_ batch)) i) as [inn Hinn]; [lia|].
  exists rn, inn, (take k (drop (i * k) (data Q_s))).
  repeat (split; [done|]).
  rewrite !lookup_zip_with, Hrn, Hinn, list_lookup_fmap, rows_lookup by done.
  done.
Qed.

End QLearningFurther.

Section QLearningTerminal.
Context {V : Type} `{Scalar V} {D : Domain}.
Implicit Types (self : QLearning.t V) (batch : TransitionBatch V).


End QLearningTerminal.

(* ===================================================================== *)
(** * Further properties of [MetaPolicyEnv]                               *)
(* ===================================================================== *)

Section MetaPolicyEnvFurther.
Context {V : Type} `{Scalar V} {World Obs Action Reward Extra : Type}.
Import MetaPolicyEnv.
Implicit Types (self : MetaPolicyEnv.t V World Obs Action Reward Extra) (w : World).


(** X6. For an environment whose [info] is a dict or [None]: a call
    of [step] that raises, whether an assertion failed or
    [inspect.getargspec], the arm or the wrapped environment raised,
    leaves the wrapper object as it was: the stored state is assigned
    only once the environment's step has returned.  A call that
    returns stores the observation it returns as the current state and
    assigns nothing else. *)
Theorem step_outcome self w (a_meta : pyobj) :
  match step self w a_meta with
  | (Ok (s', _, _, _), self', _) =>
      _s self' = Some s' ∧ env self' = env self ∧ arms self' = arms self
      ∧ action_space self' = action_space self
  | (Raise _, self', _) => self' = self
  end.
Proof.
  unfold step.
  destruct (contains (action_space self) a_meta); simpl; [|done].
  destruct (_s self) as [s|]; [|done].
  destruct a_meta as [z| | |]; try done.
  destruct (arms_getitem (arms self) z) as [pi|e]; [|done].
  destruct (sample_arm pi w s) as [w1 [[a logp]|e]]; [|done].
  by destruct (env_step (env self) w1 a) as [w2 [[[[s' r] dn] info]|e]].
Qed.

(** X7. The [info] dict that [step] returns is the wrapped
    environment's (empty if that was [None]) with the keys 'a' and
    'logp' set: every other entry of the environment's dict is kept, and
    an entry of its own under 'a' or 'logp' is overwritten.  A
    non-empty dict of the environment is the object that is updated. *)
Theorem step_info_merge self w (z : Z) (s : Obs)
    (pi : MetaPolicyEnv.arm V World Obs Action) w1 (a : Action) (lp : V)
    w2 (s' : Obs) (r : Reward) (dn : bool)
    (info_env : option (gmap string (MetaPolicyEnv.info_val V Action Extra))) :
  contains (action_space self) (PyInt z) = true →
  _s self = Some s →
  arms self !! Z.to_nat z = Some pi →
  sample_arm pi w s = (w1, Ok (a, lp)) →
  env_step (env self) w1 a = (w2, Ok (s', r, dn, info_env)) →
  ∃ info self',
    step self w (PyInt z)
    = (Ok (s', r, dn, info), self',
       match info_env with
       | Some d => if decide (d = ∅) then w2 else info_write (env self) w2 info
       | None => w2
       end)
    ∧ dom info = {["a"; "logp"]} ∪ dom (default ∅ info_env)
    ∧ info !! "a" = Some (InfoAction a)
    ∧ info !! "logp" = Some (InfoLogp lp)
    ∧ ∀ key, key ≠ "a" → key ≠ "logp" → info !! key = default ∅ info_env !! key.
Proof.
  intros Hc Hs Hl Hsample Hstep.
  assert (Hz : (0 ≤ z)%Z).
  { destruct (action_space self); simpl in Hc; try done.
    apply andb_prop in Hc as [Hc _]. lia. }
  assert (Hget : arms_getitem (arms self) z = Ok pi).
  { unfold arms_getitem. destruct (Z.ltb_spec z 0) as [?|_]; [lia|].
    destruct (Z.ltb_spec z 0) as [?|_]; [lia|]. by rewrite Hl. }
  unfold step. rewrite Hc, Hs, Hget. simpl. rewrite Hsample, Hstep.
  eexists _, _. split; [reflexivity|]. unfold merge_info.
  split; [rewrite !dom_insert_L; apply set_eq; intros k;
          rewrite !elem_of_union, !elem_of_singleton; tauto|].
  split; [by rewrite lookup_insert_ne, lookup_insert_eq|].
  split; [by rewrite lookup_insert_eq|].
  intros key Ha Hlp. by rewrite !lookup_insert_ne by done.
Qed.

End MetaPolicyEnvFurther.

(* ===================================================================== *)
(** * Further properties of [ApexWorker]                                  *)
(* ===================================================================== *)

Section ApexWorkerStateProperties.
Context {P S : Type}.
Import ApexWorkerState.
Implicit Types (self : ApexWorkerState.t) (σ : ApexWorkerState.store P S)
  (h : gmap nat (FuncObj P S)).

Lemma read_obj_Some h (ref : nat) (o : FuncObj P S) :
  h !! ref = Some o → read_obj h ref = Ok o.
Proof. unfold read_obj. by intros ->. Qed.

Lemma lookup_alter_at {A : Type} (f : A → A) (m : gmap nat A) (i j : nat) :
  alter f i m !! j = (if decide (i = j) then f else id) <$> m !! j.
Proof.
  rewrite lookup_alter. case_decide; [by subst|]. by destruct (m !! j).
Qed.

(** What the four assignments leave in the objects [q] and [q_targ]. *)
Lemma set_state_lookup self (p pt : P) (s st : S) σ (ref : nat) :
  heap (set_state self (p, s, pt, st) σ) !! ref
  = (fun o =>
       let o1 := if decide (ref = q self)
                 then {| params := p; function_state := s |} else o in
       if decide (ref = q_targ self)
       then {| params := pt; function_state := st |} else o1)
    <$> heap σ !! ref.
Proof.
  unfold set_state, set_params, set_function_state. simpl.
  rewrite !lookup_alter_at.
  destruct (heap σ !! ref) as [o|]; simpl; [|done].
  repeat case_decide; simpl; congruence.
Qed.

End ApexWorkerStateProperties.

Section ApexWorkerStateClaims.
Context {P S : Type}.
Import ApexWorkerState.
Implicit Types (self : ApexWorkerState.t) (σ : ApexWorkerState.store P S).

(** X8. [get_state] after [set_state(state)] returns [state], when [q]
    and [q_targ] are separate objects: a worker that takes over the
    state of another reports the same parameters and function states. *)
Theorem get_state_after_set_state self (state : P * S * P * S) σ :
  q self ≠ q_targ self →
  is_Some (heap σ !! q self) →
  is_Some (heap σ !! q_targ self) →
  get_state self (set_state self state σ) = Ok state.
Proof.
  intros Hne [qo Hq] [qt Ht]. destruct state as [[[p s] pt] st].
  unfold get_state.
  rewrite (read_obj_Some _ (q self) {| params := p; function_state := s |}).
  2:{ rewrite set_state_lookup, Hq. simpl. repeat case_decide; congruence. }
  rewrite (read_obj_Some _ (q_targ self) {| params := pt; function_state := st |}).
  2:{ rewrite set_state_lookup, Ht. simpl. repeat case_decide; congruence. }
  done.
Qed.

(** X9. [set_state] with the tuple [get_state] has just returned
    changes no q-function object, whether or not [q] and [q_targ] are
    the same object; what it does is bind the policy's [q] attribute to
    the object [q].  So the call changes nothing exactly if [pi.q] was
    the object [q] already. *)
Theorem set_state_of_get_state self (state : P * S * P * S) σ :
  get_state self σ = Ok state →
  set_state self state σ = {| heap := heap σ; pi_q := q self |}
  ∧ (set_state self state σ = σ ↔ pi_q σ = q self).
Proof.
  unfold get_state, read_obj. intros Hget.
  destruct (heap σ !! q self) as [qo|] eqn:Hq; [|done].
  destruct (heap σ !! q_targ self) as [qt|] eqn:Ht; [|done].
  simpl in Hget. injection Hget as <-.
  assert (Hheap : heap (set_state self
                          (params qo, function_state qo, params qt, function_state qt) σ)
                  = heap σ).
  { apply map_eq. intros ref. rewrite set_state_lookup.
    destruct (heap σ !! ref) as [o|] eqn:Ho; simpl; [|done].
    f_equal. repeat case_decide; simplify_eq; by rewrite ?FuncObj_eta. }
  assert (Hset : set_state self
                   (params qo, function_state qo, params qt, function_state qt) σ
                 = {| heap := heap σ; pi_q := q self |}).
  { unfold set_state in *. simpl in *. by rewrite Hheap. }
  split; [exact Hset|]. rewrite Hset. destruct σ as [h pq]. simpl. split.
  - intros Heq. by injection Heq.
  - by intros ->.
Qed.

(** X10. When [q_targ] is the object [q] itself, the first half of the
    tuple given to [set_state] is overwritten by the second:
    [get_state] then returns the second half twice. *)
Theorem get_state_after_set_state_aliased self (p pt : P) (s st : S) σ :
  q self = q_targ self →
  is_Some (heap σ !! q self) →
  get_state self (set_state self (p, s, pt, st) σ) = Ok (pt, st, pt, st).
Proof.
  intros Heq [qo Hq]. unfold get_state. rewrite <- Heq.
  rewrite (read_obj_Some _ (q self) {| params := pt; function_state := st |}).
  2:{ rewrite set_state_lookup, Hq. simpl. repeat case_decide; congruence. }
  done.
Qed.

(** X11. [set_state] assigns to the objects [q] and [q_targ] only: it
    creates no object, leaves every other object as it was, and binds
    the policy's [q] attribute to the object [q]. *)
Theorem set_state_frame self (state : P * S * P * S) σ :
  dom (heap (set_state self state σ)) = dom (heap σ)
  ∧ (∀ ref, ref ≠ q self → ref ≠ q_targ self →
       heap (set_state self state σ) !! ref = heap σ !! ref)
  ∧ pi_q (set_state self state σ) = q self.
Proof.
  destruct state as [[[p s] pt] st]. split; [|split].
  - apply set_eq. intros ref. rewrite !elem_of_dom, set_state_lookup.
    by rewrite fmap_is_Some.
  - intros ref Hq Ht. rewrite set_state_lookup.
    destruct (heap σ !! ref) as [o|]; simpl; [|done].
    repeat case_decide; congruence.
  - done.
Qed.

End ApexWorkerStateClaims.

Section ApexWorkerLearnClaims.
Context {St Val Metrics : Type}.
Import ApexWorkerLearn.

(** X14. [ApexWorker.learn] never returns its metrics.  Called with one
    argument it runs [q_updater.update] once, and when that returns (and
    [transition_batch.idx] can be read) the call [self.learn(idx,
    td_error)] in its body raises [TypeError], the method taking one
    argument; the state is the one the update left.  One level of
    recursion is all there is: any positive fuel gives this result. *)
Theorem learn_never_returns
    (update : Val → St → result (Metrics * Val) * St) (get_idx : Val → result Val)
    (fuel : nat) (transition_batch : Val) (st : St) :
  fuel ≠ 0 →
  ∃ e, learn update get_idx fuel (Args1 transition_batch) st
       = Some (Raise e, (update transition_batch st).2)
       ∧ (∀ metrics td_error idx,
            (update transition_batch st).1 = Ok (metrics, td_error) →
            get_idx transition_batch = Ok idx →
            e = TypeError "learn() takes 2 positional arguments but 3 were given").
Proof.
  intros Hfuel. destruct fuel as [|fuel]; [done|]. simpl.
  destruct (update transition_batch st) as [[[metrics td_error]|e] st1]; simpl.
  - destruct (get_idx transition_batch) as [idx|e].
    + destruct fuel; simpl; eexists; (split; [reflexivity|]); by intros.
    + exists e. split; [done|]. by intros.
  - exists e. split; [done|]. by intros.
Qed.

End ApexWorkerLearnClaims.

Section ApexWorkerTraceFurther.
Context {St QRef Obs Action Reward Logp Batch TdError : Type}.
Import ApexWorker.

Ltac event_cases H :=
  repeat (apply elem_of_cons in H as [H|H]; [try discriminate H|]);
  try (by apply elem_of_nil in H).

(** X12. What [ApexWorker.trace] hands to the replay buffer.  The
    buffer is added to only when [done] holds and [tracer.add], the
    soft update, [tracer.flush] and [td_error] have all returned; the
    batch added is the one [flush] returned, with the TD error computed
    on that batch.  ['buffer.beta'] is pushed only after the buffer add
    returned, with [beta] taken at [env.T] as it is then.  The tracer
    is flushed only when [done] holds. *)
Theorem trace_buffer_calls
    (self : ApexWorker.t St QRef Obs Action Reward Logp Batch TdError)
    (s : Obs) (a : Action) (r : Reward) (done : bool) (logp : Logp)
    (st st' : St) (res : result unit)
    (log log' : list (ApexWorker.event QRef Obs Action Reward Logp Batch TdError)) :
  trace self s a r done logp (st, log) = (res, (st', log')) →
  ∃ new,
    log' = log ++ new
    ∧ (∀ tb td, BufferAdd tb td ∈ new →
         done = true
         ∧ ∃ st1 st2 st3 st4,
             tracer_add (ops self) s a r done logp st = (Ok tt, st1)
             ∧ soft_update (ops self) (q_targ_ self) (q_ self) (1 # 1000) st1 = (Ok tt, st2)
             ∧ tracer_flush (ops self) st2 = (Ok tb, st3)
             ∧ td_error (ops self) tb st3 = (Ok td, st4))
    ∧ (∀ name v, PushSetattr name v ∈ new →
         name = "buffer.beta"
         ∧ ∃ tb td st4 st5,
             buffer_add (ops self) tb td st4 = (Ok tt, st5)
             ∧ v = beta self (env_T (ops self) st5))
    ∧ (TracerFlush ∈ new → done = true).
Proof.
  unfold trace, bind, call, read, ret. simpl.
  destruct (tracer_add (ops self) s a r done logp st) as [[[]|e] st1] eqn:Hadd; simpl.
  2:{ intros [= <- <- <-]. eexists. split; [reflexivity|].
      repeat split; intros; event_cases H. }
  destruct (soft_update (ops self) (q_targ_ self) (q_ self) (1 # 1000) st1)
    as [[[]|e] st2] eqn:Hsu; simpl.
  2:{ intros [= <- <- <-]. eexists. rewrite <- !app_assoc. split; [reflexivity|].
      repeat split; intros; event_cases H. }
  destruct done; simpl.
  2:{ intros [= <- <- <-]. eexists. rewrite <- !app_assoc. split; [reflexivity|].
      repeat split; intros; event_cases H. }
  destruct (tracer_flush (ops self) st2) as [[tb|e] st3] eqn:Hfl; simpl.
  2:{ intros [= <- <- <-]. eexists. rewrite <- !app_assoc. split; [reflexivity|].
      repeat split; intros; event_cases H. }
  destruct (td_error (ops self) tb st3) as [[td|e] st4] eqn:Htd; simpl.
  2:{ intros [= <- <- <-]. eexists. rewrite <- !app_assoc. split; [reflexivity|].
      repeat split; intros; event_cases H. }
  destruct (buffer_add (ops self) tb td st4) as [[[]|e] st5] eqn:Hba; simpl.
  2:{ intros [= <- <- <-]. eexists. rewrite <- !app_assoc. split; [reflexivity|].
      repeat split; intros; event_cases H.
      injection H as -> ->. eauto 10. }
  destruct (push_setattr (ops self) "buffer.beta" (beta self (env_T (ops self) st5)) st5)
    as [res' st6] eqn:Hps.
  intros [= <- <- <-]. eexists. rewrite <- !app_assoc. split; [reflexivity|].
  repeat split; intros; event_cases H.
  - injection H as -> ->. eauto 10.
  - by injection H as -> ->.
  - injection H as -> ->. eauto 10.
Qed.

End ApexWorkerTraceFurther.

Section FurtherExamples.
Import Examples MoreExamples.

Lemma target_func_reads_target_entries_witness :
  QLearning.target_func ql_discrete targ_params targ_state 1 one_batch
  = QLearning.target_func ql_discrete
      {[ "q_targ" := 7%Z; "q" := 99%Z ]} {[ "q_targ" := tt ]} 1 one_batch.
Proof.
  apply (target_func_reads_target_entries ql_discrete
           targ_params {[ "q_targ" := 7%Z; "q" := 99%Z ]}
           targ_state {[ "q_targ" := tt ]} 1 one_batch);
    [reflexivity | reflexivity | discriminate].
Defined.

Lemma target_func_evaluation_mode_only_witness :
  QLearning.target_func ql_discrete targ_params targ_state 1 one_batch
  = QLearning.target_func ql_twin targ_params targ_state 1 one_batch.
Proof.
  apply (target_func_evaluation_mode_only ql_discrete ql_twin
           targ_params targ_state 1 one_batch);
    [reflexivity | reflexivity | reflexivity | exact I | reflexivity | reflexivity].
Defined.

Lemma target_func_per_sample_witness :
  ∃ G, QLearning.target_func ql_discrete targ_params targ_state 1 two_batch = Ok G
       ∧ shape G = [2]
       ∧ data G !! 0 = Some 20%Z.
Proof.
  destruct (target_func_per_sample ql_discrete targ_params targ_state 1 two_batch
              2 3 7%Z tt
              {| shape := [2; 3]; data := [1; 5; 2; 1; 5; 2]%Z |} tt)
    as (G & HG & Hshape & _ & Hi);
    [reflexivity | reflexivity | reflexivity | reflexivity | reflexivity
    | reflexivity | lia | reflexivity | reflexivity | reflexivity | reflexivity |].
  exists G. split; [exact HG|]. split; [exact Hshape|].
  destruct (Hi 0) as (rn & inn & row & Hrn & Hinn & Hrow & Hdata); [lia|].
  rewrite Hdata, Hrow. injection Hrn as <-. injection Hinn as <-. reflexivity.
Defined.


(** In floating point: a terminal sample with reward 1 gets the target
    1 while the target q-function's values are finite, and NaN once one
    of them is infinite. *)
Example target_func_terminal_float_finite :
  QLearning.target_func (ql_float 5%float) targ_params targ_state 1 terminal_batch_float
  = Ok {| shape := [1]; data := [1%float] |}.
Proof. vm_compute. reflexivity. Qed.

Example target_func_terminal_float_nan :
  match QLearning.target_func (ql_float infinity) targ_params targ_state 1
          terminal_batch_float with
  | Ok G => shape G = [1] ∧ PrimFloat.classify <$> data G = [NaN]
  | Raise _ => False
  end.
Proof. vm_compute. split; reflexivity. Qed.

Lemma step_info_merge_witness :
  ∃ info self',
    MetaPolicyEnv.step
      (MetaPolicyEnv.after_calls lives_env [arm_logp_lives] (0, ∅)
         [MetaPolicyEnv.CallReset]).1 (0, ∅) (PyInt 0)
    = (Ok (200%Z, 1%Z, false, info), self', (1, info))
    ∧ info !! "lives" = Some (MetaPolicyEnv.InfoExtra tt)
    ∧ info !! "a" = Some (MetaPolicyEnv.InfoAction 200%Z).
Proof.
  destruct (step_info_merge
              (MetaPolicyEnv.after_calls lives_env [arm_logp_lives] (0, ∅)
                 [MetaPolicyEnv.CallReset]).1
              (0, ∅) 0%Z 100%Z arm_logp_lives (0, ∅) 200%Z (-1)%Z
              (1, lives_info) 200%Z 1%Z false (Some lives_info))
    as (info & self' & Hstep & _ & Ha & _ & Hkeep);
    [reflexivity | reflexivity | reflexivity | reflexivity | reflexivity |].
  exists info, self'. split; [exact Hstep|]. split; [|exact Ha].
  rewrite Hkeep; [reflexivity | discriminate | discriminate].
Defined.

Lemma get_state_after_set_state_witness :
  ApexWorkerState.get_state worker01
    (ApexWorkerState.set_state worker01 (1%Z, tt, 2%Z, tt) store01)
  = Ok (1%Z, tt, 2%Z, tt).
Proof.
  apply (get_state_after_set_state worker01 (1%Z, tt, 2%Z, tt) store01);
    [simpl; lia | simpl; eauto | simpl; eauto].
Defined.

Lemma set_state_of_get_state_witness :
  ApexWorkerState.set_state worker01 (7%Z, tt, 7%Z, tt) store01
  = {| ApexWorkerState.heap := heap_q; ApexWorkerState.pi_q := 0 |}.
Proof.
  apply (set_state_of_get_state worker01 (7%Z, tt, 7%Z, tt) store01). reflexivity.
Defined.

Lemma get_state_after_set_state_aliased_witness :
  ApexWorkerState.get_state worker00
    (ApexWorkerState.set_state worker00 (1%Z, tt, 2%Z, tt) store01)
  = Ok (2%Z, tt, 2%Z, tt).
Proof.
  apply (get_state_after_set_state_aliased worker00 1%Z 2%Z tt tt store01);
    [reflexivity | simpl; eauto].
Defined.

Lemma trace_buffer_calls_witness :
  ∃ new : list (ApexWorker.event string Z Z Z Z Z Z),
    [ApexWorker.TracerAdd 0%Z 0%Z 1%Z true 0%Z;
     ApexWorker.SoftUpdate "q_targ" "q" (1 # 1000);
     ApexWorker.TracerFlush; ApexWorker.TdErrorCall 0%Z] = [] ++ new
    ∧ ¬ (∃ tb td, ApexWorker.BufferAdd tb td ∈ new).
Proof.
  destruct (trace_buffer_calls counting_worker 0%Z 0%Z 1%Z true 0%Z 0%Z 1%Z
              (Raise (AssertionError "bad shape" [1; 1]))
              []
              [ApexWorker.TracerAdd 0%Z 0%Z 1%Z true 0%Z;
               ApexWorker.SoftUpdate "q_targ" "q" (1 # 1000);
               ApexWorker.TracerFlush; ApexWorker.TdErrorCall 0%Z])
    as (new & Hlog & Hbuf & _); [reflexivity|].
  exists new. split; [exact Hlog|].
  intros (tb & td & Hin). destruct (Hbuf tb td Hin) as (_ & st1 & st2 & st3 & st4 & _ & _ & _ & Htd).
  discriminate Htd.
Defined.

Lemma learn_never_returns_witness :
  ApexWorkerLearn.learn counting_update Ok 3 (ApexWorkerLearn.Args1 5%Z) 0
  = Some (Raise (TypeError "learn() takes 2 positional arguments but 3 were given"), 1).
Proof.
  destruct (learn_never_returns (Metrics := Z) counting_update Ok 3 5%Z 0)
    as (e & Hlearn & He); [lia|].
  rewrite Hlearn. rewrite (He 0%Z 5%Z 5%Z); reflexivity.
Defined.

End FurtherExamples.

Section MetaPolicyEnvAssertions.
Context {V : Type} `{Scalar V} {World Obs Action Reward Extra : Type}.
Import MetaPolicyEnv.

(** X13. Which assertion of [step] fires, on a wrapper that has been
    through any history of calls since [__init__].  A meta-action that
    is not an integer, is negative, or is [len(arms)] or more is
    reported as "a_meta is invalid", before the stored state is looked
    at: index [-1] never reaches the arms tuple.  A valid meta-action
    on a wrapper that was never reset is reported as "please call
    env.reset() first". *)
Theorem step_assertion_messages
    (env0 : MetaPolicyEnv.Env V World Obs Action Reward Extra)
    (arms0 : list (MetaPolicyEnv.arm V World Obs Action)) (w0 : World)
    (calls : list method_call) :
  let st := after_calls env0 arms0 w0 calls in
  (∀ a_meta,
     (∀ z, a_meta = PyInt z → (z < 0)%Z ∨ (Z.of_nat (length arms0) ≤ z)%Z) →
     step st.1 st.2 a_meta = (Raise (AssertionError "a_meta is invalid" []), st.1, st.2))
  ∧ (∀ z, (0 ≤ z < Z.of_nat (length arms0))%Z →
       existsb is_reset calls = false →
       step st.1 st.2 (PyInt z)
       = (Raise (AssertionError "please call env.reset() first" []), st.1, st.2)).
Proof.
  intros st.
  destruct (after_calls_inv env0 arms0 w0 calls) as (He & Ha & Hsp & Hs).
  fold st in He, Ha, Hsp, Hs. split.
  - intros a_meta Hbad. unfold step. rewrite Hsp.
    destruct (contains (Discrete (length arms0)) a_meta) eqn:Hc; [|done].
    apply contains_Discrete in Hc as (z & -> & Hz).
    destruct (Hbad z eq_refl); lia.
  - intros z Hz Hnr. unfold step. rewrite Hsp.
    assert (Hc : contains (Discrete (length arms0)) (PyInt z) = true)
      by (apply contains_Discrete; eauto).
    rewrite Hc. simpl.
    destruct (_s st.1) as [s|] eqn:Hst; [|done].
    assert (Hr : existsb is_reset calls = true) by (apply Hs; eauto).
    congruence.
Qed.

End MetaPolicyEnvAssertions.
